(** * Rolling windows over one-pass iterables

    A shallow embedding of [rolling/logical.py] (the [All] and [Any]
    rolling objects) together with the window engine they plug into, and
    the proofs of the properties stated for them.

    Python integers are unbounded, so every counter is a [Z].  An
    iterator over a finite iterable is the list of the values it has not
    produced yet; [next] on the empty list is [StopIteration], modelled
    by [None]. *)

From Stdlib Require Import String ZArith List Bool Lia.
Import ListNotations.

#[local] Open Scope Z_scope.
#[local] Set Implicit Arguments.

(** ** The iterator protocol *)

Section Iterators.
Context {V : Type}.

  (** [next(it)]: the next value and the advanced iterator, or [None]
      when the iterator is exhausted. *)
Definition next (it : list V) : option (V * list V) :=
    match it with
    | [] => None
    | val :: rest => Some (val, rest)
    end.

  (** [islice(it, stop)]: the first [stop] values (fewer when the
      iterator runs dry) and the iterator left behind once they have been
      drawn.  Python rejects a negative [stop]; every caller below passes
      [window_size - 1] for a validated [window_size]. *)
Definition islice (it : list V) (stop : Z) : list V * list V :=
    (firstn (Z.to_nat stop) it, skipn (Z.to_nat stop) it).

  (** The last [n] values of a list: the brute-force window. *)
Definition lastn (n : Z) (l : list V) : list V :=
    skipn (length l - Z.to_nat n)%nat l.
End Iterators.

(** Truthiness of the two value types used in the examples. *)
Definition truth_int (z : Z) : bool := negb (z =? 0).
Definition truth_bool (b : bool) : bool := b.

(** ** [class All(RollingObject)] *)

Module All.
Section WithTruth.
Context {V : Type} (truth : V -> bool).

Record t : Type := mk
    { _iterator : list V; _i : Z; _obs : Z; _last_false : Z }.

  (** One turn of the [for val in head] loop of [_init_fixed], on the
      pair [(self._i, self._last_false)]. *)
Definition prime (acc : Z * Z) (val : V) : Z * Z :=
    let i := fst acc + 1 in
    (i, if negb (truth val) then i else snd acc).

Definition _init_fixed (iterable : list V) (window_size : Z) : t :=
    let (head, rest) := islice iterable (window_size - 1) in
    let acc := fold_left prime head (0, -1) in
    mk rest (fst acc) window_size (snd acc).

Definition _init_variable (iterable : list V) (window_size : Z) : t :=
    mk iterable (-1) 0 (- window_size - 1).

Definition _add_new (self : t) : option t :=
    match next (_iterator self) with
    | None => None
    | Some (val, rest) =>
        let i := _i self + 1 in
        let obs := _obs self + 1 in
        Some (mk rest i obs (if negb (truth val) then i else _last_false self))
    end.

Definition _update (self : t) : option t :=
    match next (_iterator self) with
    | None => None
    | Some (val, rest) =>
        let i := _i self + 1 in
        Some (mk rest i (_obs self)
                 (if negb (truth val) then i else _last_false self))
    end.

Definition _remove_old (self : t) : t :=
    mk (_iterator self) (_i self) (_obs self - 1) (_last_false self).

Definition current_value (self : t) : bool :=
    _i self - _obs self >=? _last_false self.
End WithTruth.
Arguments t V : clear implicits.
End All.

(** ** [class Any(RollingObject)] *)

Module Any.
Section WithTruth.
Context {V : Type} (truth : V -> bool).

Record t : Type := mk
    { _iterator : list V; _i : Z; _obs : Z; _last_true : Z }.

Definition prime (acc : Z * Z) (val : V) : Z * Z :=
    let i := fst acc + 1 in
    (i, if truth val then i else snd acc).

Definition _init_fixed (iterable : list V) (window_size : Z) : t :=
    let (head, rest) := islice iterable (window_size - 1) in
    let acc := fold_left prime head (0, -1) in
    mk rest (fst acc) window_size (snd acc).

Definition _init_variable (iterable : list V) (window_size : Z) : t :=
    mk iterable (-1) 0 (- window_size - 1).

Definition _add_new (self : t) : option t :=
    match next (_iterator self) with
    | None => None
    | Some (val, rest) =>
        let i := _i self + 1 in
        let obs := _obs self + 1 in
        Some (mk rest i obs (if truth val then i else _last_true self))
    end.

Definition _update (self : t) : option t :=
    match next (_iterator self) with
    | None => None
    | Some (val, rest) =>
        let i := _i self + 1 in
        Some (mk rest i (_obs self)
                 (if truth val then i else _last_true self))
    end.

Definition _remove_old (self : t) : t :=
    mk (_iterator self) (_i self) (_obs self - 1) (_last_true self).

Definition current_value (self : t) : bool :=
    _i self - _obs self <? _last_true self.
End WithTruth.
Arguments t V : clear implicits.
End Any.

(** ** The running sum *)

(** Modelled from the spec: the [Sum] rolling object of
    [rolling/arithmetic.py], which the tests import, is not among the
    sources.  Its state is the running total and the ring buffer of the
    raw values still inside the window; [incorporate] adds the new value
    to the total, [evict] subtracts the value leaving the window, and the
    current value is the total.  The hooks the engine calls are built from
    these two, with the bookkeeping of [_obs] that [All] and [Any] use. *)

Module Sum.
(** Modelled from the spec: the state of the running sum, which is in
    [rolling/arithmetic.py]: the iterator, the ring buffer with its
    capacity, the running total and the observation count. *)
Record t : Type := mk
  { _iterator : list Z; window_size : Z; buffer : list Z;
    runningTotal : Z; _obs : Z }.

(** Modelled from the spec: [incorporate] of the running sum,
    [runningTotal += value], the value entering the buffer. *)
Definition incorporate (value : Z) (self : t) : t :=
  mk (_iterator self) (window_size self) (buffer self ++ [value])
     (runningTotal self + value) (_obs self).

(** Modelled from the spec: [evict] of the running sum,
    [runningTotal -= value_leaving_window], the oldest value leaving the
    buffer. *)
Definition evict (self : t) : t :=
  match buffer self with
  | [] => self
  | value_leaving_window :: kept =>
      mk (_iterator self) (window_size self) kept
         (runningTotal self - value_leaving_window) (_obs self)
  end.

Definition with_iterator (rest : list Z) (self : t) : t :=
  mk rest (window_size self) (buffer self) (runningTotal self) (_obs self).

Definition with_obs (obs : Z) (self : t) : t :=
  mk (_iterator self) (window_size self) (buffer self) (runningTotal self) obs.

(** Modelled from the spec: [initFixed] of the running sum, the
    [window_size - 1] priming values incorporated as if already in the
    window. *)
Definition _init_fixed (iterable : list Z) (window_size : Z) : t :=
  let (head, rest) := islice iterable (window_size - 1) in
  fold_left (fun self value => incorporate value self) head
            (mk rest window_size [] 0 window_size).

(** Modelled from the spec: [initVariable] of the running sum, the
    empty window. *)
Definition _init_variable (iterable : list Z) (window_size : Z) : t :=
  mk iterable window_size [] 0 0.

(** Modelled from the spec: growing the window of the running sum by
    one incorporated value. *)
Definition _add_new (self : t) : option t :=
  match next (_iterator self) with
  | None => None
  | Some (value, rest) =>
      Some (with_obs (_obs self + 1) (incorporate value (with_iterator rest self)))
  end.

(** Modelled from the spec: sliding the window of the running sum.  The
    ring buffer holds at most [window_size] values: incorporating into a
    full buffer evicts the oldest one. *)
Definition _update (self : t) : option t :=
  match next (_iterator self) with
  | None => None
  | Some (value, rest) =>
      let self := incorporate value (with_iterator rest self) in
      Some (if Z.of_nat (length (buffer self)) >? window_size self
            then evict self else self)
  end.

(** Modelled from the spec: shrinking the window of the running sum by
    one evicted value. *)
Definition _remove_old (self : t) : t :=
  with_obs (_obs self - 1) (evict self).

(** Modelled from the spec: [currentValue] of the running sum. *)
Definition current_value (self : t) : Z := runningTotal self.
End Sum.

(** ** The window engine *)

(** The hook set a rolling object offers to the engine, over source
    values [V], object state [S] and aggregate values [R]. *)
Class RollingObject (V S R : Type) : Type :=
  { _iterator : S -> list V;
    _obs : S -> Z;
    _init_fixed : list V -> Z -> S;
    _init_variable : list V -> Z -> S;
    _add_new : S -> option S;
    _update : S -> option S;
    _remove_old : S -> S;
    current_value : S -> R }.

Definition All_object {V : Type} (truth : V -> bool)
  : RollingObject V (All.t V) bool :=
  {| _iterator := @All._iterator V;
     _obs := @All._obs V;
     _init_fixed := @All._init_fixed V truth;
     _init_variable := @All._init_variable V;
     _add_new := All._add_new truth;
     _update := All._update truth;
     _remove_old := @All._remove_old V;
     current_value := @All.current_value V |}.

Definition Any_object {V : Type} (truth : V -> bool)
  : RollingObject V (Any.t V) bool :=
  {| _iterator := @Any._iterator V;
     _obs := @Any._obs V;
     _init_fixed := @Any._init_fixed V truth;
     _init_variable := @Any._init_variable V;
     _add_new := Any._add_new truth;
     _update := Any._update truth;
     _remove_old := @Any._remove_old V;
     current_value := @Any.current_value V |}.

Definition Sum_object : RollingObject Z Sum.t Z :=
  {| _iterator := Sum._iterator;
     _obs := Sum._obs;
     _init_fixed := Sum._init_fixed;
     _init_variable := Sum._init_variable;
     _add_new := Sum._add_new;
     _update := Sum._update;
     _remove_old := Sum._remove_old;
     current_value := Sum.current_value |}.

(** Modelled from the spec: the engine itself (the [RollingObject] base
    class that [logical.py] imports from [.base]) is not among the
    sources.  Construction validates its parameters and primes the
    object; a fixed-mode step is one [_update]; a variable-mode step
    grows the window with [_add_new] until it has held [window_size]
    values and slides it with [_update] from then on.  When the source
    runs dry under a window that has been filled, the window is emptied
    from the left with [_remove_old], one value per step, down to a single
    observation: the expected outputs of [test_rolling_sum_variable] fix
    this tail.  Every step yields [current_value] of the object as the
    step leaves it. *)

Inductive WindowType : Type := fixed | variable.

(** What a caller may pass as [window_size]. *)
Inductive PyValue : Type :=
| PyInt (n : Z)
| PyStr (s : string)
| PyNone.

Inductive ConfigurationError : Type := configuration_error.

(** Modelled from the spec: the window-type tokens of the missing
    constructor, [fixed] and [variable]. *)
Definition parse_window_type (token : string) : option WindowType :=
  if String.eqb token "fixed" then Some fixed
  else if String.eqb token "variable" then Some variable
  else None.

(** Modelled from the spec: the check of the missing constructor that
    [window_size] is a positive integer. *)
Definition validate_window_size (window_size : PyValue) : option Z :=
  match window_size with
  | PyInt n => if 0 <? n then Some n else None
  | _ => None
  end.

Section Engine.
Context {V S R : Type} (RO : RollingObject V S R).

(** Modelled from the spec: the attributes the missing base class keeps
    next to those of the rolling object. *)
Record Engine : Type := mkEngine
  { window_type : WindowType; window_size : Z; _filled : bool; object : S }.

Definition with_object (e : Engine) (self : S) : Engine :=
  mkEngine (window_type e) (window_size e) (_filled e) self.

(** Modelled from the spec: the missing constructor over validated
    parameters, priming the object for its mode. *)
Definition new (mode : WindowType) (window_size : Z) (source : list V)
  : Engine :=
  match mode with
  | fixed => mkEngine fixed window_size false (_init_fixed source window_size)
  | variable =>
      mkEngine variable window_size false (_init_variable source window_size)
  end.

(** Modelled from the spec: [construct] of the missing base class.  It
    returns, next to its outcome, the source as construction leaves
    it. *)
Definition construct (source : list V) (window_size : PyValue) (mode : string)
  : (ConfigurationError + Engine) * list V :=
  match parse_window_type mode, validate_window_size window_size with
  | Some mode, Some window_size =>
      let e := new mode window_size source in
      (inr e, _iterator (object e))
  | _, _ => (inl configuration_error, source)
  end.

(** Modelled from the spec: the fixed-mode step of the missing base
    class. *)
Definition step_fixed (e : Engine) : option Engine :=
  match _update (object e) with
  | None => None
  | Some self => Some (with_object e self)
  end.

(** Modelled from the spec: the variable-mode step of the missing base
    class, with the tail that the tests of the variable running sum
    expect. *)
Definition step_variable (e : Engine) : option Engine :=
  if negb (_filled e) && (_obs (object e) <? window_size e) then
    match _add_new (object e) with
    | None => None
    | Some self =>
        Some (mkEngine (window_type e) (window_size e)
                (if _obs self =? window_size e then true else _filled e) self)
    end
  else
    match _update (object e) with
    | Some self => Some (with_object e self)
    | None =>
        if _obs (object e) =? 1 then None
        else Some (with_object e (_remove_old (object e)))
    end.

(** Modelled from the spec: the step of the missing base class, by
    mode. *)
Definition step (e : Engine) : option Engine :=
  match window_type e with
  | fixed => step_fixed e
  | variable => step_variable e
  end.

(** Modelled from the spec: iteration over the missing base class.  The
    engine states at the successive yields, until the step raises
    [StopIteration]; [None] when [fuel] steps were not enough to get
    there. *)
Fixpoint states (fuel : nat) (e : Engine) : option (list Engine) :=
  match fuel with
  | O => None
  | Datatypes.S fuel =>
      match step e with
      | None => Some []
      | Some e' => option_map (cons e') (states fuel e')
      end
  end.

Definition budget (e : Engine) : nat :=
  (length (_iterator (object e)) + Z.to_nat (window_size e) + 1)%nat.

Definition yielded_states (e : Engine) : option (list Engine) :=
  states (budget e) e.

Definition yielded (e : Engine) : R := current_value (object e).

(** Modelled from the spec: [produce] of the missing base class, the
    whole output sequence as [list(r)] collects it. *)
Definition produce (e : Engine) : option (list R) :=
  option_map (map yielded) (yielded_states e).

(** Modelled from the spec: a whole run of the missing base class over
    validated parameters. *)
Definition rolling (source : list V) (window_size : Z) (mode : WindowType)
  : option (list R) :=
  produce (new mode window_size source).

(** The values consumed from [source] by the time the object is in
    state [self]. *)
Definition consumed (source : list V) (self : S) : list V :=
  firstn (length source - length (_iterator self))%nat source.

(** What the engine relies on in every rolling object: the hooks pull
    one value at a time and keep [_obs] as [All] and [Any] do. *)
Record Lawful : Prop :=
  { init_fixed_iterator : forall it w,
      _iterator (_init_fixed it w) = skipn (Z.to_nat (w - 1)) it;
    init_variable_iterator : forall it w,
      _iterator (_init_variable it w) = it;
    init_variable_obs : forall it w, _obs (_init_variable it w) = 0;
    add_new_pulls : forall self,
      match _add_new self with
      | None => _iterator self = []
      | Some self' =>
          _iterator self' = tl (_iterator self) /\ _iterator self <> []
          /\ _obs self' = _obs self + 1
      end;
    update_pulls : forall self,
      match _update self with
      | None => _iterator self = []
      | Some self' =>
          _iterator self' = tl (_iterator self) /\ _iterator self <> []
          /\ _obs self' = _obs self
      end;
    remove_old_keeps : forall self,
      _iterator (_remove_old self) = _iterator self
      /\ _obs (_remove_old self) = _obs self - 1 }.
End Engine.

Arguments Engine S : clear implicits.

(** The number of yields of a variable-mode run over [n] values with
    window size [w], starting from [obs] observations. *)
Definition variable_yields (n obs w : Z) : Z :=
  if n <? w - obs then n else n + w - 1.

(** A run that ends, with [n] yields. *)
Definition yields_count {R : Type} (run : option (list R)) (n : Z) : Prop :=
  exists outs, run = Some outs /\ Z.of_nat (length outs) = n.

(** ** Invariants of the last-position bookkeeping *)

(** [tracks truth base seen i last]: after the values [seen], numbered
    from [base] on, [i] is the position of the newest one and [last]
    bounds the positions of the falsy ones, being itself the position of
    a falsy value unless it precedes [base].  [_init_fixed] numbers the
    values from 1, [_init_variable] from 0. *)
Definition tracks {V : Type} (truth : V -> bool) (base : Z) (seen : list V)
  (i last : Z) : Prop :=
  i = Z.of_nat (length seen) + base - 1
  /\ (forall j v, nth_error seen j = Some v -> truth v = false ->
                 Z.of_nat j + base <= last)
  /\ (base <= last ->
      exists v, nth_error seen (Z.to_nat (last - base)) = Some v
                /\ truth v = false).

(** The object has consumed [seen] from [source], tracks it, and its
    window lies within what it has consumed. *)
Definition All_reads {V : Type} (truth : V -> bool) (base : Z)
  (source : list V) (self : All.t V) : Prop :=
  exists seen,
    source = seen ++ All._iterator self
    /\ tracks truth base seen (All._i self) (All._last_false self)
    /\ 0 <= All._obs self <= Z.of_nat (length seen).

Definition All_fixed_inv {V : Type} (truth : V -> bool) (source : list V)
  (w : Z) (e : Engine (All.t V)) : Prop :=
  window_type e = fixed /\ All._obs (object e) = w
  /\ exists seen,
      source = seen ++ All._iterator (object e)
      /\ tracks truth 1 seen (All._i (object e)) (All._last_false (object e))
      /\ (All._iterator (object e) <> [] -> w - 1 <= Z.of_nat (length seen)).

Definition All_variable_inv {V : Type} (truth : V -> bool) (source : list V)
  (w : Z) (e : Engine (All.t V)) : Prop :=
  window_type e = variable /\ window_size e = w
  /\ (_filled e = true -> 1 <= All._obs (object e))
  /\ All_reads truth 0 source (object e).

(** ** Two rolling objects in lock step *)

Definition option_rel {A B : Type} (rel : A -> B -> Prop)
  (x : option A) (y : option B) : Prop :=
  match x, y with
  | Some a, Some b => rel a b
  | None, None => True
  | _, _ => False
  end.

Section LockStep.
Context {V1 S1 R1 V2 S2 R2 : Type}
  (A : RollingObject V1 S1 R1) (B : RollingObject V2 S2 R2)
  (rel : S1 -> S2 -> Prop).

(** [rel] is kept by every hook, and related objects have as many
    observations and as many values left to pull. *)
Record Simulates : Prop :=
  { sim_obs : forall a b, rel a b -> _obs a = _obs b;
    sim_left : forall a b,
      rel a b -> length (_iterator a) = length (_iterator b);
    sim_add_new : forall a b,
      rel a b -> option_rel rel (_add_new a) (_add_new b);
    sim_update : forall a b,
      rel a b -> option_rel rel (_update a) (_update b);
    sim_remove_old : forall a b,
      rel a b -> rel (_remove_old a) (_remove_old b) }.

Definition engine_rel (e1 : Engine S1) (e2 : Engine S2) : Prop :=
  window_type e1 = window_type e2 /\ window_size e1 = window_size e2
  /\ _filled e1 = _filled e2 /\ rel (object e1) (object e2).
End LockStep.

(** An [All] object and an [Any] object over sources that correspond
    through [f], with the same counters. *)
Definition dual {V W : Type} (f : V -> W) (a : All.t V) (b : Any.t W) : Prop :=
  map f (All._iterator a) = Any._iterator b
  /\ All._i a = Any._i b /\ All._obs a = Any._obs b
  /\ All._last_false a = Any._last_true b.

(** ** Derived quantities and parameter conditions *)

(** The left edge of the window, derived from the counters and never
    stored: [WindowStart = Position - ObservedCount + 1]. *)
Definition All_WindowStart {V : Type} (self : All.t V) : Z :=
  All._i self - All._obs self + 1.

Definition Any_WindowStart {V : Type} (self : Any.t V) : Z :=
  Any._i self - Any._obs self + 1.

Definition positive_integer (window_size : PyValue) : Prop :=
  exists n, window_size = PyInt n /\ 0 < n.

Definition recognised (mode : string) : Prop :=
  mode = "fixed"%string \/ mode = "variable"%string.

(** ** Callers of the hooks *)

(** The three state-changing hooks a caller may invoke on a rolling
    object.  A caller that catches the [StopIteration] of a pulling hook
    finds the object as it was: [next] raises before any attribute is
    assigned. *)
Inductive Call : Type := AddNew | Update | RemoveOld.

Section Callers.
Context {V S R : Type} (RO : RollingObject V S R).

Definition call (c : Call) (self : S) : option S :=
  match c with
  | AddNew => _add_new self
  | Update => _update self
  | RemoveOld => Some (_remove_old self)
  end.

Definition call_caught (c : Call) (self : S) : S :=
  match call c self with
  | Some self' => self'
  | None => self
  end.

(** The states of the object after each call of a sequence. *)
Fixpoint history (cs : list Call) (self : S) : list S :=
  match cs with
  | [] => []
  | c :: cs => let self' := call_caught c self in self' :: history cs self'
  end.
End Callers.

(** The object has consumed some prefix of [source] and tracks it. *)
Definition All_follows {V : Type} (truth : V -> bool) (base : Z)
  (source : list V) (self : All.t V) : Prop :=
  exists seen,
    source = seen ++ All._iterator self
    /\ tracks truth base seen (All._i self) (All._last_false self).

(** What the priming loop leaves in [(i, last)] after the values [seen],
    [mark] telling the values whose position is recorded. *)
Definition primed {V : Type} (mark : V -> bool) (seen : list V)
  (i last : Z) : Prop :=
  i = Z.of_nat (length seen)
  /\ (existsb mark seen = false -> last = -1)
  /\ (existsb mark seen = true ->
      1 <= last <= i
      /\ (exists v, nth_error seen (Z.to_nat (last - 1)) = Some v
                    /\ mark v = true)
      /\ existsb mark (skipn (Z.to_nat last) seen) = false).

(** ** Where a run stands after [k] steps *)

Section Standing.
Context {V S R : Type} (RO : RollingObject V S R).

(** Fixed mode: [k] values have been pulled since priming. *)
Definition fixed_at (source : list V) (w : Z) (k : nat) (e : Engine S)
  : Prop :=
  window_type e = fixed
  /\ (length (_iterator (object e)) + k
      = length (skipn (Z.to_nat (w - 1)) source))%nat.

(** Variable mode over [N] values: the first [N] steps pull one value
    each, the window growing up to [w]; the steps after that shrink it. *)
Definition variable_at (N w : Z) (k : nat) (e : Engine S) : Prop :=
  window_type e = variable /\ window_size e = w
  /\ Z.of_nat (length (_iterator (object e))) = Z.max 0 (N - Z.of_nat k)
  /\ (Z.of_nat k <= N -> _obs (object e) = Z.min (Z.of_nat k) w)
  /\ (N < Z.of_nat k -> _obs (object e) = N + w - Z.of_nat k /\ w <= N)
  /\ (_filled e = true <-> w <= Z.of_nat k).
End Standing.

(** The number of observations in the window at the yield of index [j]
    (from 0) of a variable-mode run over [N] values with window size
    [w]: it grows from 1 to [w], stays there while values come, and then
    falls by one per yield. *)
Definition variable_observed (N w : Z) (j : nat) : Z :=
  if Z.of_nat j + 1 <=? N then Z.min (Z.of_nat j + 1) w
  else N + w - (Z.of_nat j + 1).

(** ** Worked examples *)

Example all_doc_w4 :
  rolling (All_object truth_int) [8; 0; 1; 3; 6; 5] 4 fixed
  = Some [false; false; true].
Proof. reflexivity. Qed.

Example all_doc_w3 :
  option_map (firstn 2) (rolling (All_object truth_int) [8; 0; 1; 3; 6; 5] 3 fixed)
  = Some [false; false].
Proof. reflexivity. Qed.

Example any_doc_w4 :
  rolling (Any_object truth_int) [1; 0; 0; 0; 6; 5] 4 fixed
  = Some [true; true; true].
Proof. reflexivity. Qed.

Example any_doc_w3 :
  option_map (firstn 2) (rolling (Any_object truth_int) [1; 0; 0; 0; 6; 5] 3 fixed)
  = Some [true; false].
Proof. reflexivity. Qed.

Example sum_fixed_all :
  map (fun w => rolling Sum_object [3; -8; 1; 7; -2] w fixed) [5; 4; 3; 2; 1]
  = map Some [[1]; [3; -2]; [-4; 0; 6]; [-5; -7; 8; 5]; [3; -8; 1; 7; -2]].
Proof. reflexivity. Qed.

Example sum_variable_all :
  map (fun w => rolling Sum_object [3; 0; 1; 7; 2] w variable) [5; 4; 3; 2; 1]
  = map Some [[3; 3; 4; 11; 13; 10; 10; 9; 2]; [3; 3; 4; 11; 10; 10; 9; 2];
              [3; 3; 4; 8; 10; 9; 2]; [3; 3; 1; 8; 9; 2]; [3; 0; 1; 7; 2]].
Proof. reflexivity. Qed.

Example sum_variable_neg :
  map (fun w => rolling Sum_object [3; -8; 1; 7; -2] w variable) [5; 4; 3; 2; 1]
  = map Some [[3; -5; -4; 3; 1; -2; 6; 5; -2]; [3; -5; -4; 3; -2; 6; 5; -2];
              [3; -5; -4; 0; 6; 5; -2]; [3; -5; -7; 8; 5; -2]; [3; -8; 1; 7; -2]].
Proof. reflexivity. Qed.

(** ** Facts about the engine, for any lawful rolling object *)

Section EngineFacts.
Context {V S R : Type} (RO : RollingObject V S R) (L : Lawful RO).

Lemma length_tl (A : Type) (l : list A) :
  l <> [] -> length l = Datatypes.S (length (tl l)).
Proof. destruct l; [congruence | reflexivity]. Qed.

(** A property that every step establishes holds at every yield. *)
Lemma states_Forall (P Q : Engine S -> Prop) :
  (forall e e', P e -> step RO e = Some e' -> P e' /\ Q e') ->
  forall fuel e l, P e -> states RO fuel e = Some l -> Forall Q l.
Proof.
  intros Hstep; induction fuel as [|fuel IH]; intros e l HP; simpl.
  - discriminate.
  - destruct (step RO e) as [e'|] eqn:E.
    + destruct (Hstep _ _ HP E) as [HP' HQ'].
      destruct (states RO fuel e') as [l'|] eqn:E'; simpl; [|discriminate].
      intros [= <-]. constructor; [exact HQ' | eauto].
    + intros [= <-]. constructor.
Qed.

(** Fuel beyond what a run needs does not change it. *)
Lemma states_more_fuel fuel fuel' e l :
  states RO fuel e = Some l -> (fuel <= fuel')%nat ->
  states RO fuel' e = Some l.
Proof.
  revert fuel' e l; induction fuel as [|fuel IH]; intros fuel' e l; simpl.
  - discriminate.
  - intros H Hle. destruct fuel' as [|fuel']; [lia|]. simpl.
    destruct (step RO e) as [e'|]; [|exact H].
    destruct (states RO fuel e') as [l'|] eqn:E'; [|discriminate].
    rewrite (IH fuel' e' l' E') by lia. exact H.
Qed.

(** Fixed mode: one yield per value left in the source. *)
Lemma states_fixed fuel e :
  window_type e = fixed ->
  (length (_iterator (object e)) < fuel)%nat ->
  exists l, states RO fuel e = Some l
            /\ length l = length (_iterator (object e)).
Proof.
  revert e; induction fuel as [|fuel IH]; intros e Hm Hf; [lia|].
  simpl. unfold step, step_fixed; rewrite Hm.
  pose proof (update_pulls L (object e)) as Hu.
  destruct (_update (object e)) as [self|].
  - destruct Hu as (Ht & Hne & _).
    pose proof (length_tl Hne) as Hl.
    destruct (IH (with_object e self)) as (l & El & Ll).
    + exact Hm.
    + simpl. rewrite Ht. lia.
    + exists (with_object e self :: l). rewrite El. split; [reflexivity|].
      simpl in *. rewrite Ll, Ht. lia.
  - exists []. rewrite Hu. split; reflexivity.
Qed.

(** Variable mode, source dry and window filled: the window empties down
    to one observation. *)
Lemma states_variable_tail fuel e :
  window_type e = variable -> _filled e = true ->
  _iterator (object e) = [] -> 1 <= _obs (object e) ->
  (Z.to_nat (_obs (object e)) <= fuel)%nat ->
  exists l, states RO fuel e = Some l
            /\ Z.of_nat (length l) = _obs (object e) - 1.
Proof.
  revert e; induction fuel as [|fuel IH]; intros e Hm Hfill Hit Hobs Hf; [lia|].
  simpl. unfold step, step_variable; rewrite Hm, Hfill; simpl.
  pose proof (update_pulls L (object e)) as Hu.
  destruct (_update (object e)) as [self|]; [tauto|].
  destruct (Z.eqb_spec (_obs (object e)) 1) as [E1|N1].
  - exists []. split; [reflexivity | simpl; lia].
  - destruct (remove_old_keeps L (object e)) as [Ri Ro].
    destruct (IH (with_object e (_remove_old (object e)))) as (l & El & Ll);
      simpl; try assumption; try congruence; try lia.
    exists (with_object e (_remove_old (object e)) :: l).
    rewrite El. split; [reflexivity|]. simpl length. simpl in Ll. lia.
Qed.

(** Variable mode, window filled: one yield per value left, then the
    tail. *)
Lemma states_variable_slide fuel e :
  window_type e = variable -> _filled e = true -> 1 <= _obs (object e) ->
  (length (_iterator (object e)) + Z.to_nat (_obs (object e)) <= fuel)%nat ->
  exists l, states RO fuel e = Some l
            /\ Z.of_nat (length l)
               = Z.of_nat (length (_iterator (object e))) + _obs (object e) - 1.
Proof.
  revert e; induction fuel as [|fuel IH]; intros e Hm Hfill Hobs Hf; [lia|].
  pose proof (update_pulls L (object e)) as Hu.
  destruct (_update (object e)) as [self|] eqn:Eu.
  - destruct Hu as (Ht & Hne & Ho).
    pose proof (length_tl Hne) as Hl.
    simpl. unfold step, step_variable; rewrite Hm, Hfill, Eu; simpl.
    destruct (IH (with_object e self)) as (l & El & Ll);
      simpl; try assumption; try lia.
    + rewrite Ht, Ho. lia.
    + exists (with_object e self :: l). rewrite El. split; [reflexivity|].
      simpl length. simpl in Ll. rewrite Ht, Ho in Ll. lia.
  - destruct (@states_variable_tail (Datatypes.S fuel) e) as (l & El & Ll);
      try assumption; try lia.
    exists l. split; [exact El|]. rewrite Ll, Hu. simpl. lia.
Qed.

(** Variable mode, window still growing. *)
Lemma states_variable_grow fuel e :
  window_type e = variable -> _filled e = false ->
  0 <= _obs (object e) < window_size e ->
  (length (_iterator (object e)) + Z.to_nat (window_size e) < fuel)%nat ->
  exists l, states RO fuel e = Some l
            /\ Z.of_nat (length l)
               = variable_yields (Z.of_nat (length (_iterator (object e))))
                   (_obs (object e)) (window_size e).
Proof.
  revert e; induction fuel as [|fuel IH]; intros e Hm Hfill Hobs Hf; [lia|].
  simpl. unfold step, step_variable; rewrite Hm, Hfill; simpl.
  destruct (Z.ltb_spec (_obs (object e)) (window_size e)) as [_|]; [|lia].
  pose proof (add_new_pulls L (object e)) as Ha.
  destruct (_add_new (object e)) as [self|].
  - destruct Ha as (Ht & Hne & Ho).
    pose proof (length_tl Hne) as Hl.
    destruct (Z.eqb_spec (_obs self) (window_size e)) as [Ew|Nw].
    + match goal with |- context [states RO fuel ?e'] =>
        destruct (@states_variable_slide fuel e') as (l & El & Ll) end;
        simpl; try assumption; try reflexivity; try lia.
      * rewrite Ht. lia.
      * eexists. rewrite El. split; [reflexivity|].
        simpl length. simpl in Ll. unfold variable_yields.
        destruct (Z.ltb_spec (Z.of_nat (length (_iterator (object e))))
                    (window_size e - _obs (object e))); rewrite Ht in Ll; lia.
    + match goal with |- context [states RO fuel ?e'] =>
        destruct (IH e') as (l & El & Ll) end;
        simpl; try assumption; try reflexivity; try lia.
      * rewrite Ht. lia.
      * eexists. rewrite El. split; [reflexivity|].
        simpl length. simpl in Ll. unfold variable_yields in *.
        rewrite Ht, Ho in Ll.
        destruct (Z.ltb_spec (Z.of_nat (length (_iterator (object e))))
                    (window_size e - _obs (object e)));
        destruct (Z.ltb_spec (Z.of_nat (length (tl (_iterator (object e)))))
                    (window_size e - (_obs (object e) + 1))); lia.
  - exists []. rewrite Ha. split; [reflexivity|].
    unfold variable_yields. simpl.
    destruct (Z.ltb_spec 0 (window_size e - _obs (object e))); lia.
Qed.
End EngineFacts.

(** ** The three rolling objects are lawful *)

Lemma All_lawful (V : Type) (truth : V -> bool) : Lawful (All_object truth).
Proof.
  split; simpl; intros; try reflexivity.
  - unfold All._add_new. destruct (All._iterator self); simpl;
      [reflexivity | repeat split; congruence].
  - unfold All._update. destruct (All._iterator self); simpl;
      [reflexivity | repeat split; congruence].
  - split; reflexivity.
Qed.

Lemma Any_lawful (V : Type) (truth : V -> bool) : Lawful (Any_object truth).
Proof.
  split; simpl; intros; try reflexivity.
  - unfold Any._add_new. destruct (Any._iterator self); simpl;
      [reflexivity | repeat split; congruence].
  - unfold Any._update. destruct (Any._iterator self); simpl;
      [reflexivity | repeat split; congruence].
  - split; reflexivity.
Qed.

Lemma Sum_prime_keeps head : forall self,
  let primed := fold_left (fun self value => Sum.incorporate value self) head self in
  Sum._iterator primed = Sum._iterator self /\ Sum._obs primed = Sum._obs self.
Proof.
  induction head as [|value head IH]; intros self; simpl; [tauto|].
  destruct (IH (Sum.incorporate value self)) as [Hi Ho]. simpl in *. tauto.
Qed.

Lemma Sum_evict_keeps self :
  Sum._iterator (Sum.evict self) = Sum._iterator self
  /\ Sum._obs (Sum.evict self) = Sum._obs self.
Proof. unfold Sum.evict. destruct (Sum.buffer self); simpl; tauto. Qed.

Lemma Sum_lawful : Lawful Sum_object.
Proof.
  split; simpl; intros; try reflexivity.
  - unfold Sum._init_fixed, islice.
    apply (Sum_prime_keeps (firstn (Z.to_nat (w - 1)) it)).
  - unfold Sum._add_new. destruct (Sum._iterator self); simpl;
      [reflexivity | repeat split; congruence].
  - unfold Sum._update. destruct (Sum._iterator self) as [|value rest] eqn:E;
      simpl; [reflexivity|].
    match goal with |- context [if ?c then _ else _] => destruct c end;
      [|simpl; repeat split; congruence].
    match goal with |- context [Sum.evict ?s] =>
      destruct (Sum_evict_keeps s) as [-> ->] end.
    simpl; repeat split; congruence.
  - unfold Sum._remove_old. destruct (Sum_evict_keeps self) as [Hi Ho].
    simpl. tauto.
Qed.

(** ** Output lengths, for any lawful rolling object *)

Section Lengths.
Context {V S R : Type} (RO : RollingObject V S R) (L : Lawful RO).

Lemma yields_count_map (A : Type) (f : A -> R) run n :
  (exists l, run = Some l /\ Z.of_nat (length l) = n) ->
  yields_count (option_map (map f) run) n.
Proof.
  intros (l & -> & Hl). exists (map f l).
  split; [reflexivity | now rewrite length_map].
Qed.

Lemma rolling_fixed_count (source : list V) (w : Z) :
  1 <= w ->
  yields_count (rolling RO source w fixed)
    (Z.max 0 (Z.of_nat (length source) - w + 1)).
Proof.
  intros Hw. unfold rolling, produce, yielded_states.
  apply yields_count_map.
  destruct (@states_fixed _ _ _ RO L (budget RO (new RO fixed w source))
              (new RO fixed w source)) as (l & El & Ll).
  - reflexivity.
  - unfold budget. lia.
  - exists l. split; [exact El|]. rewrite Ll. simpl.
    rewrite (init_fixed_iterator L), length_skipn. lia.
Qed.

Lemma rolling_variable_count (source : list V) (w : Z) :
  1 <= w ->
  yields_count (rolling RO source w variable)
    (variable_yields (Z.of_nat (length source)) 0 w).
Proof.
  intros Hw. unfold rolling, produce, yielded_states.
  apply yields_count_map.
  destruct (@states_variable_grow _ _ _ RO L
              (budget RO (new RO variable w source))
              (new RO variable w source)) as (l & El & Ll);
    try reflexivity.
  - simpl. rewrite (init_variable_obs L). lia.
  - unfold budget. lia.
  - exists l. split; [exact El|]. rewrite Ll. simpl.
    now rewrite (init_variable_iterator L), (init_variable_obs L).
Qed.

(** A fixed-mode source too short to prime the window is used up by
    priming, and nothing is yielded. *)
Lemma rolling_fixed_short (source : list V) (w : Z) :
  Z.of_nat (length source) < w - 1 ->
  _iterator (_init_fixed source w) = []
  /\ rolling RO source w fixed = Some [].
Proof.
  intros Hn. split.
  - rewrite (init_fixed_iterator L). apply skipn_all2. lia.
  - destruct (@rolling_fixed_count source w) as (outs & -> & Hl); [lia|].
    destruct outs; [reflexivity | simpl in Hl; lia].
Qed.
End Lengths.

(** ** The window of [All] is what a scan of the source would see *)

Section AllTracks.
Context {V : Type} (truth : V -> bool).

Lemma forallb_false_nth (l : list V) :
  forallb truth l = false ->
  exists j v, nth_error l j = Some v /\ truth v = false.
Proof.
  induction l as [|x l IH]; simpl; [discriminate|].
  destruct (truth x) eqn:Ex; simpl.
  - intros H. destruct (IH H) as (j & v & Hj & Hv).
    exists (Datatypes.S j), v. auto.
  - intros _. exists 0%nat, x. auto.
Qed.

Lemma tracks_snoc base seen i last val :
  tracks truth base seen i last ->
  tracks truth base (seen ++ [val]) (i + 1)
    (if negb (truth val) then i + 1 else last).
Proof.
  intros (Hi & Hbound & Hlast). repeat split.
  - rewrite length_app. simpl. lia.
  - intros j v Hj Hv.
    destruct (Nat.lt_ge_cases j (length seen)) as [Hlt|Hge].
    + rewrite nth_error_app1 in Hj by exact Hlt.
      pose proof (Hbound j v Hj Hv). destruct (truth val); simpl; lia.
    + rewrite nth_error_app2 in Hj by exact Hge.
      destruct (j - length seen)%nat as [|k] eqn:Ek; simpl in Hj.
      * injection Hj as ->. rewrite Hv. simpl. lia.
      * destruct k; discriminate.
  - destruct (truth val) eqn:Ev; simpl; intros Hb.
    + destruct (Hlast Hb) as (v & Hn & Hv). exists v. split; [|exact Hv].
      rewrite nth_error_app1; [exact Hn|].
      apply nth_error_Some. congruence.
    + exists val. split; [|exact Ev].
      replace (Z.to_nat (i + 1 - base)) with (length seen + 0)%nat by lia.
      rewrite nth_error_app2 by lia.
      replace (length seen + 0 - length seen)%nat with 0%nat by lia.
      reflexivity.
Qed.

(** The priming loop of [_init_fixed]. *)
Lemma tracks_prime base head : forall seen acc,
  tracks truth base seen (fst acc) (snd acc) ->
  tracks truth base (seen ++ head)
    (fst (fold_left (All.prime truth) head acc))
    (snd (fold_left (All.prime truth) head acc)).
Proof.
  induction head as [|val head IH]; intros seen acc H; simpl.
  - now rewrite app_nil_r.
  - replace (seen ++ val :: head) with ((seen ++ [val]) ++ head)
      by now rewrite <- app_assoc.
    apply IH. unfold All.prime; simpl. now apply tracks_snoc.
Qed.

(** The O(1) test agrees with the scan of the window. *)
Lemma tracks_window base seen i last obs :
  tracks truth base seen i last ->
  0 <= obs <= Z.of_nat (length seen) ->
  (i - obs >=? last) = forallb truth (lastn obs seen).
Proof.
  intros (Hi & Hbound & Hlast) Hobs. unfold lastn.
  set (k := (length seen - Z.to_nat obs)%nat).
  destruct (forallb truth (skipn k seen)) eqn:E.
  - destruct (Z.geb_spec (i - obs) last) as [|Hlt]; [reflexivity|].
    destruct Hlast as (v & Hn & Hv); [lia|].
    rewrite forallb_forall in E.
    assert (In v (skipn k seen)) as Hin.
    { apply nth_error_In with (n := (Z.to_nat (last - base) - k)%nat).
      rewrite nth_error_skipn, <- Hn. f_equal. lia. }
    rewrite (E v Hin) in Hv. discriminate.
  - destruct (forallb_false_nth _ E) as (j & v & Hj & Hv).
    rewrite nth_error_skipn in Hj.
    pose proof (Hbound _ _ Hj Hv).
    destruct (Z.geb_spec (i - obs) last); [lia | reflexivity].
Qed.

Lemma consumed_app (source seen : list V) (self : All.t V) :
  source = seen ++ All._iterator self ->
  consumed (All_object truth) source self = seen.
Proof.
  intros ->. unfold consumed; simpl. rewrite length_app.
  replace (length seen + length (All._iterator self)
           - length (All._iterator self))%nat
    with (length seen + 0)%nat by lia.
  rewrite firstn_app_2. simpl. apply app_nil_r.
Qed.

Lemma All_reads_scan base source self :
  All_reads truth base source self ->
  All.current_value self
  = forallb truth
      (lastn (All._obs self) (consumed (All_object truth) source self)).
Proof.
  intros (seen & Hsrc & Htr & Hobs).
  rewrite (@consumed_app source seen self Hsrc). unfold All.current_value.
  now apply tracks_window with (base := base).
Qed.
End AllTracks.

Section AllEngine.
Context {V : Type} (truth : V -> bool).

Lemma tracks_nil base i last :
  i = base - 1 -> last < base -> tracks truth base [] i last.
Proof.
  intros -> Hl. repeat split.
  - intros [|j] v; discriminate.
  - lia.
Qed.

Lemma All_fixed_init (source : list V) (w : Z) :
  1 <= w -> All_fixed_inv truth source w (new (All_object truth) fixed w source).
Proof.
  intros Hw. split; [reflexivity|]. split; [reflexivity|].
  exists (firstn (Z.to_nat (w - 1)) source). simpl. split; [|split].
  - symmetry. apply firstn_skipn.
  - apply (@tracks_prime V truth 1 (firstn (Z.to_nat (w - 1)) source) [] (0, -1)).
    apply tracks_nil; simpl; lia.
  - intros Hne. rewrite length_firstn.
    destruct (Nat.le_gt_cases (length source) (Z.to_nat (w - 1))) as [Hle|Hgt];
      [|lia].
    exfalso. apply Hne. now apply skipn_all2.
Qed.

Lemma All_fixed_step (source : list V) (w : Z) e e' :
  1 <= w ->
  All_fixed_inv truth source w e ->
  step (All_object truth) e = Some e' ->
  All_fixed_inv truth source w e' /\ All_reads truth 1 source (object e').
Proof.
  intros Hpos (Hm & Ho & seen & Hsrc & Htr & Hlen).
  unfold step, step_fixed; rewrite Hm; simpl. unfold All._update.
  destruct (All._iterator (object e)) as [|val rest] eqn:Eit; simpl;
    [discriminate|].
  intros [= <-].
  assert (source = (seen ++ [val]) ++ rest) as Hsrc'
    by now rewrite <- app_assoc.
  pose proof (tracks_snoc val Htr) as Htr'.
  assert (w - 1 <= Z.of_nat (length seen)) as Hw by (apply Hlen; discriminate).
  split.
  - split; [exact Hm | split; [exact Ho|]].
    exists (seen ++ [val]); simpl.
    split; [exact Hsrc' | split; [exact Htr'|]].
    intros _. rewrite length_app; simpl; lia.
  - exists (seen ++ [val]); simpl.
    split; [exact Hsrc' | split; [exact Htr'|]].
    rewrite length_app; simpl; lia.
Qed.

Lemma All_variable_init (source : list V) (w : Z) :
  1 <= w ->
  All_variable_inv truth source w (new (All_object truth) variable w source).
Proof.
  intros Hw. split; [reflexivity|]. split; [reflexivity|].
  split; [discriminate|].
  exists []. simpl. split; [reflexivity|].
  split; [apply tracks_nil; lia | lia].
Qed.

Lemma All_variable_step (source : list V) (w : Z) e e' :
  1 <= w ->
  All_variable_inv truth source w e ->
  step (All_object truth) e = Some e' ->
  All_variable_inv truth source w e' /\ All_reads truth 0 source (object e').
Proof.
  intros Hw (Hm & Hsize & Hfill & seen & Hsrc & Htr & Hobs).
  unfold step, step_variable; rewrite Hm, Hsize; simpl.
  unfold All._add_new, All._update.
  destruct (negb (_filled e) && (All._obs (object e) <? w)) eqn:Egrow.
  - destruct (All._iterator (object e)) as [|val rest] eqn:Eit; simpl;
      [discriminate|].
    intros [= <-].
    assert (All_reads truth 0 source
              (All.mk rest (All._i (object e) + 1) (All._obs (object e) + 1)
                 (if negb (truth val) then All._i (object e) + 1
                  else All._last_false (object e)))) as Hreads.
    { exists (seen ++ [val]); simpl. split; [|split].
      - now rewrite <- app_assoc.
      - now apply tracks_snoc.
      - rewrite length_app; simpl; lia. }
    split; [|exact Hreads].
    split; [simpl; congruence | split; [simpl; congruence | split; [|exact Hreads]]]. simpl.
    destruct (Z.eqb_spec (All._obs (object e) + 1) w); intros; lia.
  - assert (1 <= All._obs (object e)) as Hone.
    { destruct (_filled e); [now apply Hfill|]. simpl in Egrow.
      apply Z.ltb_ge in Egrow. lia. }
    destruct (All._iterator (object e)) as [|val rest] eqn:Eit; simpl.
    + destruct (Z.eqb_spec (All._obs (object e)) 1) as [|Hne]; [discriminate|].
      intros [= <-].
      assert (All_reads truth 0 source (All._remove_old (object e))) as Hreads.
      { exists seen; simpl. split; [now rewrite Eit|].
        split; [exact Htr | lia]. }
      split; [|exact Hreads].
      split; [simpl; congruence | split; [simpl; congruence | split; [|exact Hreads]]].
      simpl. intros; lia.
    + intros [= <-].
      assert (All_reads truth 0 source
                (All.mk rest (All._i (object e) + 1) (All._obs (object e))
                   (if negb (truth val) then All._i (object e) + 1
                    else All._last_false (object e)))) as Hreads.
      { exists (seen ++ [val]); simpl. split; [|split].
        - now rewrite <- app_assoc.
        - now apply tracks_snoc.
        - rewrite length_app; simpl; lia. }
      split; [|exact Hreads].
      split; [simpl; congruence | split; [simpl; congruence | split; [exact Hfill|exact Hreads]]].
Qed.

(** Every run of [All] ends, and at each yield the object has tracked
    what it consumed.  The values are numbered from 1 in fixed mode and
    from 0 in variable mode. *)
Lemma All_yields_reads (source : list V) (w : Z) (mode : WindowType) :
  1 <= w ->
  exists l,
    yielded_states (All_object truth) (new (All_object truth) mode w source)
    = Some l
    /\ Forall (fun e =>
         All_reads truth (match mode with fixed => 1 | variable => 0 end)
           source (object e)) l.
Proof.
  intros Hw. unfold yielded_states.
  set (e0 := new (All_object truth) mode w source).
  destruct mode.
  - destruct (@states_fixed _ _ _ _ (All_lawful truth)
                (budget (All_object truth) e0) e0) as (l & El & _);
      [reflexivity | unfold budget; lia |].
    exists l. split; [exact El|].
    apply (@states_Forall _ _ _ (All_object truth)
             (All_fixed_inv truth source w)) with (2 := All_fixed_init source Hw)
                                                  (3 := El).
    intros e e'. now apply All_fixed_step.
  - destruct (@states_variable_grow _ _ _ _ (All_lawful truth)
                (budget (All_object truth) e0) e0) as (l & El & _);
      [reflexivity | reflexivity | simpl; lia | unfold budget; lia |].
    exists l. split; [exact El|].
    apply (@states_Forall _ _ _ (All_object truth)
             (All_variable_inv truth source w))
      with (2 := All_variable_init source Hw) (3 := El).
    intros e e'. now apply All_variable_step.
Qed.

(** The brute-force aggregate of [All] at an engine state: the scan of
    the last [_obs] values consumed from [source]. *)
Lemma All_yields_scan (source : list V) (w : Z) (mode : WindowType) :
  1 <= w ->
  exists l,
    yielded_states (All_object truth) (new (All_object truth) mode w source)
    = Some l
    /\ Forall (fun e =>
         All.current_value (object e)
         = forallb truth
             (lastn (All._obs (object e))
                (consumed (All_object truth) source (object e)))) l.
Proof.
  intros Hw. destruct (All_yields_reads source mode Hw) as (l & El & Hl).
  exists l. split; [exact El|].
  apply Forall_impl with (2 := Hl). intros e. apply All_reads_scan.
Qed.

(** In variable mode the window never starts before position 0. *)
Lemma All_variable_window_start (source : list V) (w : Z) :
  1 <= w ->
  exists l,
    yielded_states (All_object truth)
      (new (All_object truth) variable w source) = Some l
    /\ Forall (fun e => 0 <= All_WindowStart (object e)) l.
Proof.
  intros Hw. destruct (All_yields_reads source variable Hw) as (l & El & Hl).
  exists l. split; [exact El|].
  apply Forall_impl with (2 := Hl).
  intros e (seen & _ & (Hi & _) & Hobs). unfold All_WindowStart. lia.
Qed.
End AllEngine.

(** ** Lock-step runs *)

Section LockStepFacts.
Context {V1 S1 R1 V2 S2 R2 : Type}
  (A : RollingObject V1 S1 R1) (B : RollingObject V2 S2 R2)
  (rel : S1 -> S2 -> Prop) (Sim : Simulates A B rel).

Lemma step_sim e1 e2 :
  engine_rel rel e1 e2 ->
  option_rel (engine_rel rel) (step A e1) (step B e2).
Proof.
  intros (Hm & Hw & Hf & Hr). unfold step. rewrite <- Hm.
  destruct (window_type e1) eqn:Em.
  - unfold step_fixed. pose proof (sim_update Sim _ _ Hr) as Hu.
    destruct (_update (object e1)), (_update (object e2)); simpl in *;
      try tauto.
    repeat split; simpl; first [assumption | congruence].
  - unfold step_variable. rewrite <- Hf, <- Hw, <- (sim_obs Sim _ _ Hr).
    destruct (negb (_filled e1) && (_obs (object e1) <? window_size e1)).
    + pose proof (sim_add_new Sim _ _ Hr) as Ha.
      destruct (_add_new (object e1)) as [a|], (_add_new (object e2)) as [b|];
        simpl in *; try tauto.
      repeat split; simpl; try first [assumption | congruence].
      now rewrite (sim_obs Sim _ _ Ha).
    + pose proof (sim_update Sim _ _ Hr) as Hu.
      destruct (_update (object e1)), (_update (object e2)); simpl in *;
        try tauto.
      * repeat split; simpl; first [assumption | congruence].
      * destruct (_obs (object e1) =? 1); simpl; [exact I|].
        repeat split; simpl; try first [assumption | congruence].
        now apply (sim_remove_old Sim).
Qed.

Lemma states_sim fuel : forall e1 e2,
  engine_rel rel e1 e2 ->
  option_rel (Forall2 (engine_rel rel)) (states A fuel e1) (states B fuel e2).
Proof.
  induction fuel as [|fuel IH]; intros e1 e2 He; simpl; [exact I|].
  pose proof (step_sim He) as Hs.
  destruct (step A e1) as [e1'|], (step B e2) as [e2'|]; simpl in Hs;
    try tauto.
  - pose proof (IH _ _ Hs) as Hrec.
    destruct (states A fuel e1'), (states B fuel e2'); simpl in *; try tauto.
    now constructor.
  - simpl. constructor.
Qed.

Lemma budget_sim e1 e2 :
  engine_rel rel e1 e2 -> budget A e1 = budget B e2.
Proof.
  intros (_ & Hw & _ & Hr). unfold budget.
  now rewrite Hw, (sim_left Sim _ _ Hr).
Qed.

Lemma yielded_states_sim e1 e2 :
  engine_rel rel e1 e2 ->
  option_rel (Forall2 (engine_rel rel))
    (yielded_states A e1) (yielded_states B e2).
Proof.
  intros He. unfold yielded_states. rewrite <- (budget_sim He).
  now apply states_sim.
Qed.
End LockStepFacts.

(** ** [All] and [Any] are dual *)

Section Duality.
Context {V W : Type} (f : V -> W) (truthA : V -> bool) (truthB : W -> bool).
Hypothesis truth_dual : forall v, truthA v = negb (truthB (f v)).

Lemma dual_sim : Simulates (All_object truthA) (Any_object truthB) (dual f).
Proof.
  split; simpl.
  - intros a b H. apply H.
  - intros a b (Hit & _). now rewrite <- Hit, length_map.
  - intros a b (Hit & Hi & Ho & Hl). unfold All._add_new, Any._add_new.
    rewrite <- Hit. destruct (All._iterator a) as [|val rest]; simpl; [exact I|].
    rewrite truth_dual, negb_involutive, Hi, Ho, Hl.
    repeat split.
  - intros a b (Hit & Hi & Ho & Hl). unfold All._update, Any._update.
    rewrite <- Hit. destruct (All._iterator a) as [|val rest]; simpl; [exact I|].
    rewrite truth_dual, negb_involutive, Hi, Ho, Hl.
    repeat split.
  - intros a b (Hit & Hi & Ho & Hl). repeat split; simpl; congruence.
Qed.

Lemma dual_new (source : list V) (w : Z) (mode : WindowType) :
  engine_rel (dual f)
    (new (All_object truthA) mode w source)
    (new (Any_object truthB) mode w (map f source)).
Proof.
  destruct mode; repeat split; simpl.
  - symmetry. apply skipn_map.
  - rewrite firstn_map.
    generalize (firstn (Z.to_nat (w - 1)) source) (0, -1).
    intros head; induction head as [|val head IH]; intros acc; simpl;
      [reflexivity|].
    unfold All.prime at 2, Any.prime at 2.
    rewrite truth_dual, negb_involutive. apply IH.
  - rewrite firstn_map.
    generalize (firstn (Z.to_nat (w - 1)) source) (0, -1).
    intros head; induction head as [|val head IH]; intros acc; simpl;
      [reflexivity|].
    unfold All.prime at 2, Any.prime at 2.
    rewrite truth_dual, negb_involutive. apply IH.
Qed.

Lemma dual_current_value a b :
  dual f a b -> All.current_value a = negb (Any.current_value b).
Proof.
  intros (_ & Hi & Ho & Hl). unfold All.current_value, Any.current_value.
  rewrite <- Hi, <- Ho, <- Hl.
  destruct (Z.geb_spec (All._i a - All._obs a) (All._last_false a)),
           (Z.ltb_spec (All._i a - All._obs a) (All._last_false a));
    simpl; (reflexivity || lia).
Qed.

Lemma dual_outputs la lb :
  Forall2 (engine_rel (dual f)) la lb ->
  map (yielded (All_object truthA)) la
  = map negb (map (yielded (Any_object truthB)) lb).
Proof.
  induction 1 as [|ea eb la lb (_ & _ & _ & Hr) _ IH]; simpl; [reflexivity|].
  f_equal; [|exact IH]. unfold yielded; simpl. now apply dual_current_value.
Qed.

(** The outputs of the two runs, one negating the other. *)
Lemma dual_rolling (source : list V) (w : Z) (mode : WindowType) :
  1 <= w ->
  exists la lb,
    rolling (All_object truthA) source w mode = Some la
    /\ rolling (Any_object truthB) (map f source) w mode = Some lb
    /\ la = map negb lb.
Proof.
  intros Hw. unfold rolling, produce.
  pose proof (yielded_states_sim dual_sim (dual_new source w mode)) as Hsim.
  destruct (All_yields_scan truthA source mode Hw) as (sa & Ea & _).
  rewrite Ea in *.
  destruct (yielded_states (Any_object truthB)
              (new (Any_object truthB) mode w (map f source))) as [sb|];
    simpl in Hsim; [|tauto].
  eexists; eexists. split; [reflexivity|]. split; [reflexivity|].
  now apply dual_outputs.
Qed.
End Duality.

(** ** The window of [Any], through the dual [All] *)

Section AnyEngine.
Context {V : Type} (truth : V -> bool).

Lemma negb_forallb_negb (l : list V) :
  negb (forallb (fun v => negb (truth v)) l) = existsb truth l.
Proof.
  induction l as [|x l IH]; simpl; [reflexivity|].
  rewrite negb_andb, negb_involutive, IH. reflexivity.
Qed.

Lemma Forall2_Forall_r (A B : Type) (rel : A -> B -> Prop)
  (P : A -> Prop) (Q : B -> Prop) la lb :
  (forall a b, rel a b -> P a -> Q b) ->
  Forall2 rel la lb -> Forall P la -> Forall Q lb.
Proof.
  intros Himp H; induction H as [|a b la lb Hab _ IH]; intros HP.
  - constructor.
  - inversion HP; subst. constructor; eauto.
Qed.

Lemma Any_yields_scan (source : list V) (w : Z) (mode : WindowType) :
  1 <= w ->
  exists l,
    yielded_states (Any_object truth) (new (Any_object truth) mode w source)
    = Some l
    /\ Forall (fun e =>
         Any.current_value (object e)
         = existsb truth
             (lastn (Any._obs (object e))
                (consumed (Any_object truth) source (object e)))) l.
Proof.
  intros Hw.
  set (untruth := fun v : V => negb (truth v)).
  assert (forall v, untruth v = negb (truth ((fun x : V => x) v))) as Hdual
    by reflexivity.
  pose proof (yielded_states_sim (dual_sim _ _ _ Hdual)
                (dual_new (fun x : V => x) untruth truth Hdual source w mode))
    as Hsim.
  rewrite map_id in Hsim.
  destruct (All_yields_scan untruth source mode Hw) as (la & Ea & Hscan).
  rewrite Ea in Hsim.
  destruct (yielded_states (Any_object truth)
              (new (Any_object truth) mode w source)) as [lb|];
    simpl in Hsim; [|tauto].
  exists lb. split; [reflexivity|].
  refine (@Forall2_Forall_r _ _ _ _ _ _ _ _ Hsim Hscan).
  intros ea eb (_ & _ & _ & Hr) Ha.
  pose proof (dual_current_value Hr) as Hcv.
  destruct Hr as (Hit & _ & Ho & _). rewrite map_id in Hit.
  unfold consumed in *; simpl in *. rewrite <- Hit, <- Ho.
  rewrite <- negb_forallb_negb. fold untruth. rewrite <- Ha, Hcv.
  now rewrite negb_involutive.
Qed.
Lemma Any_variable_window_start (source : list V) (w : Z) :
  1 <= w ->
  exists l,
    yielded_states (Any_object truth)
      (new (Any_object truth) variable w source) = Some l
    /\ Forall (fun e => 0 <= Any_WindowStart (object e)) l.
Proof.
  intros Hw.
  set (untruth := fun v : V => negb (truth v)).
  assert (forall v, untruth v = negb (truth ((fun x : V => x) v))) as Hdual
    by reflexivity.
  pose proof (yielded_states_sim (dual_sim _ _ _ Hdual)
                (dual_new (fun x : V => x) untruth truth Hdual source w
                   variable))
    as Hsim.
  rewrite map_id in Hsim.
  destruct (All_variable_window_start untruth source Hw) as (la & Ea & Hla).
  rewrite Ea in Hsim.
  destruct (yielded_states (Any_object truth)
              (new (Any_object truth) variable w source)) as [lb|];
    simpl in Hsim; [|tauto].
  exists lb. split; [reflexivity|].
  refine (@Forall2_Forall_r _ _ _ _ _ _ _ _ Hsim Hla).
  intros ea eb (_ & _ & _ & (_ & Hi & Ho & _)).
  unfold All_WindowStart, Any_WindowStart. now rewrite Hi, Ho.
Qed.
End AnyEngine.

(** ** The window at each yield of a run *)

Section StandingFacts.
Context {V S R : Type} (RO : RollingObject V S R) (L : Lawful RO).

(** What every step establishes for the next index holds at each
    yield, by index. *)
Lemma states_indexed (P Q : nat -> Engine S -> Prop) :
  (forall k e e', P k e -> step RO e = Some e' ->
                  P (Datatypes.S k) e' /\ Q (Datatypes.S k) e') ->
  forall fuel k e l, P k e -> states RO fuel e = Some l ->
  forall j e', nth_error l j = Some e' -> Q (k + Datatypes.S j)%nat e'.
Proof.
  intros Hstep; induction fuel as [|fuel IH]; intros k e l HP; simpl.
  - discriminate.
  - destruct (step RO e) as [e1|] eqn:E.
    + destruct (Hstep _ _ _ HP E) as [HP1 HQ1].
      destruct (states RO fuel e1) as [l1|] eqn:E1; simpl; [|discriminate].
      intros [= <-] [|j] e'; simpl.
      * intros [= <-]. now replace (k + 1)%nat with (Datatypes.S k) by lia.
      * intros Hj.
        replace (k + Datatypes.S (Datatypes.S j))%nat
          with (Datatypes.S k + Datatypes.S j)%nat by lia.
        now apply (IH (Datatypes.S k) e1 l1).
    + intros [= <-] [|j] e'; discriminate.
Qed.

Lemma fixed_at_step (source : list V) (w : Z) k e e' :
  fixed_at RO source w k e -> step RO e = Some e' ->
  fixed_at RO source w (Datatypes.S k) e'.
Proof.
  intros (Hm & Hlen). unfold step, step_fixed; rewrite Hm.
  pose proof (update_pulls L (object e)) as Hu.
  destruct (_update (object e)) as [self|]; [|discriminate].
  destruct Hu as (Ht & Hne & _). pose proof (length_tl Hne) as Hl.
  intros [= <-]. split; [exact Hm|]. simpl. rewrite Ht. lia.
Qed.

Lemma variable_at_step (N w : Z) k e e' :
  1 <= w ->
  variable_at RO N w k e -> step RO e = Some e' ->
  variable_at RO N w (Datatypes.S k) e'.
Proof.
  intros Hw (Hm & Hsz & Hlen & Hle & Hgt & Hfill).
  unfold step, step_variable; rewrite Hm, Hsz.
  pose proof (add_new_pulls L (object e)) as Ha.
  pose proof (update_pulls L (object e)) as Hu.
  destruct (remove_old_keeps L (object e)) as [Ri Ro].
  destruct (_filled e) eqn:Ef; simpl.
  - assert (w <= Z.of_nat k) as Hk by (now apply Hfill).
    destruct (_update (object e)) as [self|].
    + destruct Hu as (Ht & Hne & Ho). pose proof (length_tl Hne) as Hl.
      intros [= <-]. unfold variable_at; simpl. rewrite Ht, Ho, Ef.
      repeat split; try assumption; intros; lia.
    + rewrite Hu in Hlen. simpl in Hlen.
      destruct (Z.eqb_spec (_obs (object e)) 1) as [|Hne]; [discriminate|].
      intros [= <-]. unfold variable_at; simpl. rewrite Ri, Ro, Hu, Ef.
      repeat split; try assumption; simpl; intros; lia.
  - assert (Z.of_nat k < w) as Hk.
    { destruct (Z.lt_ge_cases (Z.of_nat k) w) as [|Hge]; [assumption|].
      apply Hfill in Hge. discriminate. }
    destruct (Z.ltb_spec (_obs (object e)) w) as [Hlt|Hge]; [|lia].
    destruct (_add_new (object e)) as [self|]; [|discriminate].
    destruct Ha as (Ht & Hne & Ho). pose proof (length_tl Hne) as Hl.
    intros [= <-]. unfold variable_at; simpl. rewrite Ht, Ho.
    destruct (Z.eqb_spec (_obs (object e) + 1) w);
      repeat split; try assumption; intros; try lia; try discriminate.
Qed.

Lemma fixed_at_new (source : list V) (w : Z) :
  fixed_at RO source w 0 (new RO fixed w source).
Proof.
  split; [reflexivity|]. simpl. rewrite (init_fixed_iterator L). lia.
Qed.

Lemma variable_at_new (source : list V) (w : Z) :
  1 <= w ->
  variable_at RO (Z.of_nat (length source)) w 0 (new RO variable w source).
Proof.
  intros Hw. unfold variable_at; simpl.
  rewrite (init_variable_iterator L), (init_variable_obs L).
  repeat split; try lia; try discriminate.
Qed.

(** What has been pulled, from how far the run stands. *)
Lemma fixed_at_consumed (source : list V) (w : Z) j e :
  1 <= w ->
  fixed_at RO source w (Datatypes.S j) e ->
  (j + Z.to_nat w <= length source)%nat
  /\ consumed RO source (object e) = firstn (j + Z.to_nat w) source.
Proof.
  intros Hw (_ & Hlen). rewrite length_skipn in Hlen.
  split; [lia|]. unfold consumed. f_equal. lia.
Qed.

Lemma firstn_beyond (A : Type) (l : list A) n m :
  (length l <= n)%nat -> (length l <= m)%nat -> firstn n l = firstn m l.
Proof. intros Hn Hm. now rewrite !firstn_all2. Qed.

Lemma variable_at_consumed (source : list V) (w : Z) j e :
  variable_at RO (Z.of_nat (length source)) w (Datatypes.S j) e ->
  _obs (object e) = variable_observed (Z.of_nat (length source)) w j
  /\ consumed RO source (object e) = firstn (Datatypes.S j) source.
Proof.
  intros (_ & _ & Hlen & Hle & Hgt & _). split.
  - unfold variable_observed.
    destruct (Z.leb_spec (Z.of_nat j + 1) (Z.of_nat (length source))).
    + rewrite Hle by lia. lia.
    + destruct Hgt as [-> _]; lia.
  - unfold consumed.
    destruct (Nat.le_gt_cases (Datatypes.S j) (length source)).
    + f_equal. lia.
    + apply firstn_beyond; lia.
Qed.
End StandingFacts.

Section AllStanding.
Context {V : Type} (truth : V -> bool).

(** Fixed mode: the yield of index [j] reads the [w] values that follow
    the first [j]. *)
Lemma All_fixed_windows (source : list V) (w : Z) :
  1 <= w ->
  exists l,
    yielded_states (All_object truth) (new (All_object truth) fixed w source)
    = Some l
    /\ Z.of_nat (length l) = Z.max 0 (Z.of_nat (length source) - w + 1)
    /\ forall j e, nth_error l j = Some e ->
         All._obs (object e) = w
         /\ (j + Z.to_nat w <= length source)%nat
         /\ consumed (All_object truth) source (object e)
            = firstn (j + Z.to_nat w) source
         /\ All.current_value (object e)
            = forallb truth (lastn w (firstn (j + Z.to_nat w) source)).
Proof.
  intros Hw. unfold yielded_states.
  set (e0 := new (All_object truth) fixed w source).
  destruct (@states_fixed _ _ _ _ (All_lawful truth)
              (budget (All_object truth) e0) e0) as (l & El & Ll);
    [reflexivity | unfold budget; lia |].
  exists l. split; [exact El|]. split.
  { rewrite Ll. simpl. unfold islice; simpl. rewrite length_skipn. lia. }
  intros j e Hj.
  pose proof (@states_indexed _ _ _ (All_object truth)
                (fun k e => All_fixed_inv truth source w e
                            /\ fixed_at (All_object truth) source w k e)
                (fun k e => (All_fixed_inv truth source w e
                             /\ All_reads truth 1 source (object e))
                            /\ fixed_at (All_object truth) source w k e))
    as Hidx.
  destruct (Hidx) with (fuel := budget (All_object truth) e0) (k := 0%nat)
                       (e := e0) (l := l) (j := j) (e' := e)
    as (((_ & Ho & _) & Hreads) & Hat); try assumption.
  - intros k e1 e2 (Hinv & Hat) Hs. split; [split|split].
    + now apply (All_fixed_step Hw Hinv Hs).
    + now apply (fixed_at_step (All_lawful truth) Hat Hs).
    + now apply (All_fixed_step Hw Hinv Hs).
    + now apply (fixed_at_step (All_lawful truth) Hat Hs).
  - split; [now apply All_fixed_init | apply (fixed_at_new (All_lawful truth))].
  - simpl in Hat.
    destruct (fixed_at_consumed Hw Hat) as (Hfit & Hcons).
    split; [exact Ho|]. split; [exact Hfit|]. split; [exact Hcons|].
    rewrite <- Hcons, <- Ho. now apply All_reads_scan with (base := 1).
Qed.

(** Variable mode: the yield of index [j] reads the last
    [variable_observed N w j] of the first [j + 1] values. *)
Lemma All_variable_windows (source : list V) (w : Z) :
  1 <= w ->
  exists l,
    yielded_states (All_object truth)
      (new (All_object truth) variable w source) = Some l
    /\ Z.of_nat (length l)
       = variable_yields (Z.of_nat (length source)) 0 w
    /\ forall j e, nth_error l j = Some e ->
         All._obs (object e)
         = variable_observed (Z.of_nat (length source)) w j
         /\ consumed (All_object truth) source (object e)
            = firstn (Datatypes.S j) source
         /\ All.current_value (object e)
            = forallb truth
                (lastn (variable_observed (Z.of_nat (length source)) w j)
                   (firstn (Datatypes.S j) source)).
Proof.
  intros Hw. unfold yielded_states.
  set (e0 := new (All_object truth) variable w source).
  destruct (@states_variable_grow _ _ _ _ (All_lawful truth)
              (budget (All_object truth) e0) e0) as (l & El & Ll);
    [reflexivity | reflexivity | simpl; lia | unfold budget; lia |].
  exists l. split; [exact El|]. split; [exact Ll|].
  intros j e Hj.
  pose proof (@states_indexed _ _ _ (All_object truth)
                (fun k e => All_variable_inv truth source w e
                            /\ variable_at (All_object truth)
                                 (Z.of_nat (length source)) w k e)
                (fun k e => (All_variable_inv truth source w e
                             /\ All_reads truth 0 source (object e))
                            /\ variable_at (All_object truth)
                                 (Z.of_nat (length source)) w k e))
    as Hidx.
  destruct (Hidx) with (fuel := budget (All_object truth) e0) (k := 0%nat)
                       (e := e0) (l := l) (j := j) (e' := e)
    as ((_ & Hreads) & Hat); try assumption.
  - intros k e1 e2 (Hinv & Hat) Hs. split; [split|split].
    + now apply (All_variable_step Hw Hinv Hs).
    + now apply (variable_at_step (All_lawful truth) Hw Hat Hs).
    + now apply (All_variable_step Hw Hinv Hs).
    + now apply (variable_at_step (All_lawful truth) Hw Hat Hs).
  - split; [now apply All_variable_init
           | now apply (variable_at_new (All_lawful truth))].
  - simpl in Hat.
    destruct (@variable_at_consumed _ _ _ _ source w j e Hat) as (Ho & Hcons).
    split; [exact Ho|]. split; [exact Hcons|].
    rewrite <- Hcons, <- Ho. now apply All_reads_scan with (base := 0).
Qed.
End AllStanding.

Section AnyStanding.
Context {V : Type} (truth : V -> bool).

Lemma Forall2_nth_error_r (A B : Type) (rel : A -> B -> Prop) la lb :
  Forall2 rel la lb ->
  forall j b, nth_error lb j = Some b ->
  exists a, nth_error la j = Some a /\ rel a b.
Proof.
  induction 1 as [|a b la lb Hab _ IH]; intros [|j] b'; simpl;
    try discriminate.
  - intros [= <-]. now exists a.
  - apply IH.
Qed.

(** The run of [Any] next to the run of the dual [All]. *)
Lemma Any_dual_run (source : list V) (w : Z) (mode : WindowType) la :
  let untruth := fun v : V => negb (truth v) in
  yielded_states (All_object untruth) (new (All_object untruth) mode w source)
  = Some la ->
  exists lb,
    yielded_states (Any_object truth) (new (Any_object truth) mode w source)
    = Some lb
    /\ length lb = length la
    /\ forall j eb, nth_error lb j = Some eb ->
       exists ea,
         nth_error la j = Some ea
         /\ Any._obs (object eb) = All._obs (object ea)
         /\ consumed (Any_object truth) source (object eb)
            = consumed (All_object untruth) source (object ea)
         /\ Any.current_value (object eb)
            = negb (All.current_value (object ea)).
Proof.
  intros untruth Ea.
  assert (forall v, untruth v = negb (truth ((fun x : V => x) v))) as Hdual
    by reflexivity.
  pose proof (yielded_states_sim (dual_sim _ _ _ Hdual)
                (dual_new (fun x : V => x) untruth truth Hdual source w mode))
    as Hsim.
  rewrite map_id, Ea in Hsim.
  destruct (yielded_states (Any_object truth)
              (new (Any_object truth) mode w source)) as [lb|];
    simpl in Hsim; [|tauto].
  exists lb. split; [reflexivity|].
  split; [symmetry; now apply Forall2_length with (1 := Hsim)|].
  intros j eb Hj.
  destruct (Forall2_nth_error_r Hsim j Hj) as (ea & Hja & _ & _ & _ & Hr).
  exists ea. split; [exact Hja|].
  pose proof (dual_current_value Hr) as Hcv.
  destruct Hr as (Hit & _ & Ho & _). rewrite map_id in Hit.
  split; [now symmetry|]. split.
  - unfold consumed; simpl. now rewrite Hit.
  - rewrite Hcv. now rewrite negb_involutive.
Qed.

Lemma Any_fixed_windows (source : list V) (w : Z) :
  1 <= w ->
  exists l,
    yielded_states (Any_object truth) (new (Any_object truth) fixed w source)
    = Some l
    /\ Z.of_nat (length l) = Z.max 0 (Z.of_nat (length source) - w + 1)
    /\ forall j e, nth_error l j = Some e ->
         Any._obs (object e) = w
         /\ (j + Z.to_nat w <= length source)%nat
         /\ consumed (Any_object truth) source (object e)
            = firstn (j + Z.to_nat w) source
         /\ Any.current_value (object e)
            = existsb truth (lastn w (firstn (j + Z.to_nat w) source)).
Proof.
  intros Hw.
  destruct (All_fixed_windows (fun v => negb (truth v)) source Hw)
    as (la & Ea & La & Ha).
  destruct (Any_dual_run source w fixed Ea) as (lb & Eb & Lb & Hb).
  exists lb. split; [exact Eb|]. split; [now rewrite Lb|].
  intros j eb Hj.
  destruct (Hb j eb Hj) as (ea & Hja & Ho & Hcons & Hcv).
  destruct (Ha j ea Hja) as (Hoa & Hfit & Hca & Hva).
  split; [congruence|]. split; [exact Hfit|]. split; [congruence|].
  rewrite Hcv, Hva. apply negb_forallb_negb.
Qed.

Lemma Any_variable_windows (source : list V) (w : Z) :
  1 <= w ->
  exists l,
    yielded_states (Any_object truth)
      (new (Any_object truth) variable w source) = Some l
    /\ Z.of_nat (length l)
       = variable_yields (Z.of_nat (length source)) 0 w
    /\ forall j e, nth_error l j = Some e ->
         Any._obs (object e)
         = variable_observed (Z.of_nat (length source)) w j
         /\ consumed (Any_object truth) source (object e)
            = firstn (Datatypes.S j) source
         /\ Any.current_value (object e)
            = existsb truth
                (lastn (variable_observed (Z.of_nat (length source)) w j)
                   (firstn (Datatypes.S j) source)).
Proof.
  intros Hw.
  destruct (All_variable_windows (fun v => negb (truth v)) source Hw)
    as (la & Ea & La & Ha).
  destruct (Any_dual_run source w variable Ea) as (lb & Eb & Lb & Hb).
  exists lb. split; [exact Eb|]. split; [now rewrite Lb|].
  intros j eb Hj.
  destruct (Hb j eb Hj) as (ea & Hja & Ho & Hcons & Hcv).
  destruct (Ha j ea Hja) as (Hoa & Hca & Hva).
  split; [congruence|]. split; [congruence|].
  rewrite Hcv, Hva. apply negb_forallb_negb.
Qed.
End AnyStanding.

(** ** The properties *)

(** C1: at every step that yields a value, the incremental
    [current_value] of [All] is the conjunction of the truthiness of the
    last [_obs] values consumed from the source, and that of [Any] is
    their disjunction.  The run ends; in fixed mode the yield of index
    [j] (from 0) has [_obs = w] and has consumed the first [j + w]
    values, so it reads the window [source[j : j + w]]; in variable mode
    it has consumed the first [j + 1] values (all of them once the
    source is dry) and [_obs] is [min (j + 1) w] while values come and
    falls by one per yield afterwards. *)
Theorem incremental_value_is_window_scan (V : Type) (truth : V -> bool)
  (source : list V) (w : Z) :
  1 <= w ->
  let N := Z.of_nat (length source) in
  (exists l,
      yielded_states (All_object truth) (new (All_object truth) fixed w source)
      = Some l
      /\ Z.of_nat (length l) = Z.max 0 (N - w + 1)
      /\ forall j e, nth_error l j = Some e ->
           All._obs (object e) = w
           /\ (j + Z.to_nat w <= length source)%nat
           /\ consumed (All_object truth) source (object e)
              = firstn (j + Z.to_nat w) source
           /\ All.current_value (object e)
              = forallb truth
                  (lastn (All._obs (object e))
                     (consumed (All_object truth) source (object e)))
           /\ All.current_value (object e)
              = forallb truth (lastn w (firstn (j + Z.to_nat w) source)))
  /\ (exists l,
      yielded_states (All_object truth)
        (new (All_object truth) variable w source) = Some l
      /\ Z.of_nat (length l) = (if N <? w then N else N + w - 1)
      /\ forall j e, nth_error l j = Some e ->
           All._obs (object e) = variable_observed N w j
           /\ consumed (All_object truth) source (object e)
              = firstn (Datatypes.S j) source
           /\ All.current_value (object e)
              = forallb truth
                  (lastn (All._obs (object e))
                     (consumed (All_object truth) source (object e)))
           /\ All.current_value (object e)
              = forallb truth
                  (lastn (variable_observed N w j)
                     (firstn (Datatypes.S j) source)))
  /\ (exists l,
      yielded_states (Any_object truth) (new (Any_object truth) fixed w source)
      = Some l
      /\ Z.of_nat (length l) = Z.max 0 (N - w + 1)
      /\ forall j e, nth_error l j = Some e ->
           Any._obs (object e) = w
           /\ (j + Z.to_nat w <= length source)%nat
           /\ consumed (Any_object truth) source (object e)
              = firstn (j + Z.to_nat w) source
           /\ Any.current_value (object e)
              = existsb truth
                  (lastn (Any._obs (object e))
                     (consumed (Any_object truth) source (object e)))
           /\ Any.current_value (object e)
              = existsb truth (lastn w (firstn (j + Z.to_nat w) source)))
  /\ (exists l,
      yielded_states (Any_object truth)
        (new (Any_object truth) variable w source) = Some l
      /\ Z.of_nat (length l) = (if N <? w then N else N + w - 1)
      /\ forall j e, nth_error l j = Some e ->
           Any._obs (object e) = variable_observed N w j
           /\ consumed (Any_object truth) source (object e)
              = firstn (Datatypes.S j) source
           /\ Any.current_value (object e)
              = existsb truth
                  (lastn (Any._obs (object e))
                     (consumed (Any_object truth) source (object e)))
           /\ Any.current_value (object e)
              = existsb truth
                  (lastn (variable_observed N w j)
                     (firstn (Datatypes.S j) source))).
Proof.
  intros Hw N. unfold N. split; [|split; [|split]].
  - destruct (All_fixed_windows truth source Hw) as (l & El & Ll & Hl).
    exists l. split; [exact El|]. split; [exact Ll|].
    intros j e Hj. destruct (Hl j e Hj) as (Ho & Hfit & Hc & Hv).
    repeat split; try assumption. now rewrite Ho, Hc.
  - destruct (All_variable_windows truth source Hw) as (l & El & Ll & Hl).
    exists l. split; [exact El|].
    split; [rewrite Ll; unfold variable_yields; now rewrite Z.sub_0_r|].
    intros j e Hj. destruct (Hl j e Hj) as (Ho & Hc & Hv).
    repeat split; try assumption. now rewrite Ho, Hc.
  - destruct (Any_fixed_windows truth source Hw) as (l & El & Ll & Hl).
    exists l. split; [exact El|]. split; [exact Ll|].
    intros j e Hj. destruct (Hl j e Hj) as (Ho & Hfit & Hc & Hv).
    repeat split; try assumption. now rewrite Ho, Hc.
  - destruct (Any_variable_windows truth source Hw) as (l & El & Ll & Hl).
    exists l. split; [exact El|].
    split; [rewrite Ll; unfold variable_yields; now rewrite Z.sub_0_r|].
    intros j e Hj. destruct (Hl j e Hj) as (Ho & Hc & Hv).
    repeat split; try assumption. now rewrite Ho, Hc.
Qed.

Lemma incremental_value_is_window_scan_witness :
  1 <= 3
  /\ exists l,
      yielded_states (Any_object truth_int)
        (new (Any_object truth_int) variable 3 [1; 0; 0; 0; 6; 5]) = Some l
      /\ Z.of_nat (length l) = 8
      /\ forall j e, nth_error l j = Some e ->
           Any._obs (object e) = variable_observed 6 3 j
           /\ consumed (Any_object truth_int) [1; 0; 0; 0; 6; 5] (object e)
              = firstn (Datatypes.S j) [1; 0; 0; 0; 6; 5]
           /\ Any.current_value (object e)
              = existsb truth_int
                  (lastn (Any._obs (object e))
                     (consumed (Any_object truth_int) [1; 0; 0; 0; 6; 5]
                        (object e)))
           /\ Any.current_value (object e)
              = existsb truth_int
                  (lastn (variable_observed 6 3 j)
                     (firstn (Datatypes.S j) [1; 0; 0; 0; 6; 5])).
Proof.
  split; [lia|].
  apply (@incremental_value_is_window_scan Z truth_int [1; 0; 0; 0; 6; 5] 3).
  lia.
Defined.

(** C2, as stated, fails: in variable mode a window of size 3 over five
    values yields seven aggregates, not five. *)
Lemma variable_length_counterexample :
  ~ yields_count (rolling Sum_object [3; 0; 1; 7; 2] 3 variable)
      (Z.of_nat (length [3; 0; 1; 7; 2]))
  /\ ~ yields_count (rolling (All_object truth_int) [3; 0; 1; 7; 2] 3 variable)
        (Z.of_nat (length [3; 0; 1; 7; 2])).
Proof.
  split; intros (outs & Hrun & Hlen); vm_compute in Hrun;
    injection Hrun as <-; discriminate Hlen.
Qed.

(** C2, amended: over [N] values and a window size [w >= 1], every run
    ends; fixed mode yields [max 0 (N - w + 1)] aggregates; variable mode
    yields [N] of them when [N < w] and [N + w - 1] otherwise. *)
Theorem output_length (V : Type) (truth : V -> bool)
  (source : list V) (numbers : list Z) (w : Z) :
  1 <= w ->
  let N := Z.of_nat (length source) in
  let M := Z.of_nat (length numbers) in
  yields_count (rolling (All_object truth) source w fixed)
    (Z.max 0 (N - w + 1))
  /\ yields_count (rolling (All_object truth) source w variable)
       (if N <? w then N else N + w - 1)
  /\ yields_count (rolling (Any_object truth) source w fixed)
       (Z.max 0 (N - w + 1))
  /\ yields_count (rolling (Any_object truth) source w variable)
       (if N <? w then N else N + w - 1)
  /\ yields_count (rolling Sum_object numbers w fixed) (Z.max 0 (M - w + 1))
  /\ yields_count (rolling Sum_object numbers w variable)
       (if M <? w then M else M + w - 1).
Proof.
  intros Hw N M.
  pose proof (rolling_variable_count (All_lawful truth) source Hw) as Hav.
  pose proof (rolling_variable_count (Any_lawful truth) source Hw) as Hov.
  pose proof (rolling_variable_count Sum_lawful numbers Hw) as Hsv.
  unfold variable_yields in *. rewrite Z.sub_0_r in *.
  repeat split; try assumption.
  - apply (rolling_fixed_count (All_lawful truth) source Hw).
  - apply (rolling_fixed_count (Any_lawful truth) source Hw).
  - apply (rolling_fixed_count Sum_lawful numbers Hw).
Qed.

Lemma output_length_witness :
  1 <= 3
  /\ yields_count (rolling Sum_object [3; 0; 1; 7; 2] 3 variable) 7.
Proof.
  split; [lia|].
  apply (@output_length Z truth_int [3; 0; 1; 7; 2] [3; 0; 1; 7; 2] 3). lia.
Defined.

(** C3: for [All], [current_value] is true exactly when [_last_false]
    is before [WindowStart = _i - _obs + 1], that is when
    [_i - _obs >= _last_false]; and at every yield of a run this is
    exactly when the window holds no falsy value. *)
Theorem All_current_value_iff (V : Type) (truth : V -> bool) :
  (forall self : All.t V,
      (All.current_value self = true
       <-> All._last_false self < All_WindowStart self)
      /\ (All._last_false self < All_WindowStart self
          <-> All._i self - All._obs self >= All._last_false self))
  /\ (forall (source : list V) (w : Z) (mode : WindowType),
      1 <= w ->
      exists l,
        yielded_states (All_object truth)
          (new (All_object truth) mode w source) = Some l
        /\ Forall (fun e =>
             forallb truth
               (lastn (All._obs (object e))
                  (consumed (All_object truth) source (object e))) = true
             <-> All._last_false (object e) < All_WindowStart (object e)) l).
Proof.
  assert (forall self : All.t V,
             All.current_value self = true
             <-> All._last_false self < All_WindowStart self) as Hcv.
  { intros self. unfold All.current_value, All_WindowStart.
    destruct (Z.geb_spec (All._i self - All._obs self) (All._last_false self));
      split; intros; (lia || discriminate || reflexivity). }
  split.
  - intros self. split; [apply Hcv|]. unfold All_WindowStart. lia.
  - intros source w mode Hw.
    destruct (All_yields_scan truth source mode Hw) as (l & El & Hl).
    exists l. split; [exact El|].
    apply Forall_impl with (2 := Hl). intros e <-. apply Hcv.
Qed.

Lemma All_current_value_iff_witness :
  1 <= 4
  /\ exists l,
      yielded_states (All_object truth_int)
        (new (All_object truth_int) fixed 4 [8; 0; 1; 3; 6; 5]) = Some l
      /\ Forall (fun e =>
           forallb truth_int
             (lastn (All._obs (object e))
                (consumed (All_object truth_int) [8; 0; 1; 3; 6; 5]
                   (object e))) = true
           <-> All._last_false (object e) < All_WindowStart (object e)) l.
Proof.
  split; [lia|].
  apply (proj2 (@All_current_value_iff Z truth_int)). lia.
Defined.

(** C4: for [Any], [current_value] is true exactly when [_last_true]
    is at or after [WindowStart = _i - _obs + 1], that is when
    [_i - _obs < _last_true]; and at every yield of a run this is exactly
    when the window holds a truthy value. *)
Theorem Any_current_value_iff (V : Type) (truth : V -> bool) :
  (forall self : Any.t V,
      (Any.current_value self = true
       <-> Any._last_true self >= Any_WindowStart self)
      /\ (Any._last_true self >= Any_WindowStart self
          <-> Any._i self - Any._obs self < Any._last_true self))
  /\ (forall (source : list V) (w : Z) (mode : WindowType),
      1 <= w ->
      exists l,
        yielded_states (Any_object truth)
          (new (Any_object truth) mode w source) = Some l
        /\ Forall (fun e =>
             existsb truth
               (lastn (Any._obs (object e))
                  (consumed (Any_object truth) source (object e))) = true
             <-> Any._last_true (object e) >= Any_WindowStart (object e)) l).
Proof.
  assert (forall self : Any.t V,
             Any.current_value self = true
             <-> Any._last_true self >= Any_WindowStart self) as Hcv.
  { intros self. unfold Any.current_value, Any_WindowStart.
    destruct (Z.ltb_spec (Any._i self - Any._obs self) (Any._last_true self));
      split; intros; (lia || discriminate || reflexivity). }
  split.
  - intros self. split; [apply Hcv|]. unfold Any_WindowStart. lia.
  - intros source w mode Hw.
    destruct (Any_yields_scan truth source mode Hw) as (l & El & Hl).
    exists l. split; [exact El|].
    apply Forall_impl with (2 := Hl). intros e <-. apply Hcv.
Qed.

Lemma Any_current_value_iff_witness :
  1 <= 4
  /\ exists l,
      yielded_states (Any_object truth_int)
        (new (Any_object truth_int) fixed 4 [1; 0; 0; 0; 6; 5]) = Some l
      /\ Forall (fun e =>
           existsb truth_int
             (lastn (Any._obs (object e))
                (consumed (Any_object truth_int) [1; 0; 0; 0; 6; 5]
                   (object e))) = true
           <-> Any._last_true (object e) >= Any_WindowStart (object e)) l.
Proof.
  split; [lia|].
  apply (proj2 (@Any_current_value_iff Z truth_int)). lia.
Defined.

(** C5: AND/OR duality.  Over a boolean sequence, in fixed and in
    variable mode, the runs of [All] on the sequence and of [Any] on its
    elementwise negation both end, with as many outputs, and each output
    of [All] is the negation of the output of [Any] at the same index. *)
Theorem and_or_duality (seq : list bool) (w : Z) (mode : WindowType) :
  1 <= w ->
  exists la lb,
    rolling (All_object truth_bool) seq w mode = Some la
    /\ rolling (Any_object truth_bool) (map negb seq) w mode = Some lb
    /\ length la = length lb
    /\ forall k a,
        nth_error la k = Some a ->
        exists b, nth_error lb k = Some b /\ a = negb b.
Proof.
  intros Hw.
  destruct (@dual_rolling bool bool negb truth_bool truth_bool) with
    (source := seq) (w := w) (mode := mode) as (la & lb & Ea & Eb & Hab).
  - intros v. unfold truth_bool. now rewrite negb_involutive.
  - exact Hw.
  - exists la, lb. split; [exact Ea|]. split; [exact Eb|]. subst la.
    split; [apply length_map|].
    intros k a Hk. rewrite nth_error_map in Hk.
    destruct (nth_error lb k) as [b|]; simpl in Hk; [|discriminate].
    exists b. split; [reflexivity | congruence].
Qed.

Lemma and_or_duality_witness :
  1 <= 2
  /\ exists la lb,
      rolling (All_object truth_bool) [true; false; true; true] 2 variable
      = Some la
      /\ rolling (Any_object truth_bool) (map negb [true; false; true; true])
           2 variable
         = Some lb
      /\ length la = length lb
      /\ forall k a,
          nth_error la k = Some a ->
          exists b, nth_error lb k = Some b /\ a = negb b.
Proof.
  split; [lia|].
  apply (@and_or_duality [true; false; true; true] 2 variable). lia.
Defined.

(** C6: the running sum over [3, 0, 1, 7, 2]: fixed windows of size 3
    give [4, 8, 10], of size 1 the input itself, of size 6 nothing;
    variable windows of size 3 give [3, 3, 4, 8, 10, 9, 2]. *)
Theorem running_sum_conformance :
  rolling Sum_object [3; 0; 1; 7; 2] 3 fixed = Some [4; 8; 10]
  /\ rolling Sum_object [3; 0; 1; 7; 2] 1 fixed = Some [3; 0; 1; 7; 2]
  /\ rolling Sum_object [3; 0; 1; 7; 2] 6 fixed = Some []
  /\ rolling Sum_object [3; 0; 1; 7; 2] 3 variable
     = Some [3; 3; 4; 8; 10; 9; 2].
Proof. repeat split; vm_compute; reflexivity. Qed.

(** C7: in fixed mode a source with fewer than [window_size - 1]
    values is used up by priming and the output is empty, for [All],
    [Any] and the running sum. *)
Theorem fixed_short_source_yields_nothing (V : Type) (truth : V -> bool)
  (source : list V) (numbers : list Z) (w : Z) :
  Z.of_nat (length source) < w - 1 ->
  Z.of_nat (length numbers) < w - 1 ->
  (All._iterator (All._init_fixed truth source w) = []
   /\ rolling (All_object truth) source w fixed = Some [])
  /\ (Any._iterator (Any._init_fixed truth source w) = []
      /\ rolling (Any_object truth) source w fixed = Some [])
  /\ (Sum._iterator (Sum._init_fixed numbers w) = []
      /\ rolling Sum_object numbers w fixed = Some []).
Proof.
  intros Hs Hn. split; [|split].
  - exact (@rolling_fixed_short _ _ _ _ (All_lawful truth) source w Hs).
  - exact (@rolling_fixed_short _ _ _ _ (Any_lawful truth) source w Hs).
  - exact (@rolling_fixed_short _ _ _ _ Sum_lawful numbers w Hn).
Qed.

Lemma fixed_short_source_yields_nothing_witness :
  Z.of_nat (length [8; 0]) < 4 - 1
  /\ rolling (All_object truth_int) [8; 0] 4 fixed = Some [].
Proof.
  split; [simpl; lia|].
  apply (@fixed_short_source_yields_nothing Z truth_int [8; 0] [8; 0] 4);
    simpl; lia.
Defined.

(** C8: [_remove_old] lowers [_obs] by exactly one and leaves [_i], the
    retained [_last_false] / [_last_true] and the iterator as they
    were. *)
Theorem remove_old_frame (V : Type) :
  (forall self : All.t V,
      All._obs (All._remove_old self) = All._obs self - 1
      /\ All._i (All._remove_old self) = All._i self
      /\ All._last_false (All._remove_old self) = All._last_false self
      /\ All._iterator (All._remove_old self) = All._iterator self)
  /\ (forall self : Any.t V,
      Any._obs (Any._remove_old self) = Any._obs self - 1
      /\ Any._i (Any._remove_old self) = Any._i self
      /\ Any._last_true (Any._remove_old self) = Any._last_true self
      /\ Any._iterator (Any._remove_old self) = Any._iterator self).
Proof. split; intros self; repeat split. Qed.

(** C9: construction fails with the configuration error, with nothing
    pulled from the source, when [window_size] is not a positive integer
    or the window type is not recognised; with a positive [window_size]
    and a recognised window type it fails with no error and gives the
    engine. *)
Theorem construct_validates (V S R : Type) (RO : RollingObject V S R)
  (source : list V) (window_size : PyValue) (mode : string) :
  (~ positive_integer window_size \/ ~ recognised mode ->
   construct RO source window_size mode = (inl configuration_error, source))
  /\ (positive_integer window_size /\ recognised mode ->
      exists e, fst (construct RO source window_size mode) = inr e).
Proof.
  unfold construct, positive_integer, recognised.
  split.
  - intros [Hw | Hm].
    + destruct (parse_window_type mode); [|reflexivity].
      destruct window_size as [n| |]; simpl; try reflexivity.
      destruct (Z.ltb_spec 0 n); [|reflexivity].
      exfalso. apply Hw. now exists n.
    + unfold parse_window_type.
      destruct (String.eqb_spec mode "fixed"); [tauto|].
      destruct (String.eqb_spec mode "variable"); [tauto|].
      reflexivity.
  - intros ((n & -> & Hn) & Hm). simpl.
    destruct (Z.ltb_spec 0 n); [|lia].
    destruct Hm as [-> | ->]; simpl; eexists; reflexivity.
Qed.

Lemma construct_validates_witness :
  ((~ positive_integer (PyInt 0) \/ ~ recognised "fixed"%string)
   /\ construct (All_object truth_int) [8; 0; 1] (PyInt 0) "fixed"%string
      = (inl configuration_error, [8; 0; 1]))
  /\ ((positive_integer (PyInt 2) /\ recognised "variable"%string)
      /\ exists e,
          fst (construct (All_object truth_int) [8; 0; 1] (PyInt 2)
                 "variable"%string) = inr e).
Proof.
  assert (~ positive_integer (PyInt 0) \/ ~ recognised "fixed"%string) as Hbad.
  { left. intros (n & Hn & Hpos). injection Hn as <-. lia. }
  assert (positive_integer (PyInt 2) /\ recognised "variable"%string) as Hgood.
  { split; [exists 2; split; [reflexivity | lia] | right; reflexivity]. }
  split; (split; [assumption|]).
  - apply (proj1 (@construct_validates Z (All.t Z) bool (All_object truth_int)
                    [8; 0; 1] (PyInt 0) "fixed"%string)).
    exact Hbad.
  - apply (proj2 (@construct_validates Z (All.t Z) bool (All_object truth_int)
                    [8; 0; 1] (PyInt 2) "variable"%string)).
    exact Hgood.
Defined.

(** C10: right after [_init_variable], with no value incorporated,
    [_obs] is 0, [All.current_value] is true and [Any.current_value] is
    false: the sentinel [- window_size - 1] lies before the window start,
    there and at every yield of a variable-mode run. *)
Theorem empty_window_identities (V : Type) (truth : V -> bool)
  (iterable : list V) (w : Z) :
  0 < w ->
  (All._obs (All._init_variable iterable w) = 0
   /\ All._last_false (All._init_variable iterable w)
      < All_WindowStart (All._init_variable iterable w)
   /\ All.current_value (All._init_variable iterable w) = true)
  /\ (Any._obs (Any._init_variable iterable w) = 0
      /\ Any._last_true (Any._init_variable iterable w)
         < Any_WindowStart (Any._init_variable iterable w)
      /\ Any.current_value (Any._init_variable iterable w) = false)
  /\ (exists l,
        yielded_states (All_object truth)
          (new (All_object truth) variable w iterable) = Some l
        /\ Forall (fun e => - w - 1 < All_WindowStart (object e)) l)
  /\ (exists l,
        yielded_states (Any_object truth)
          (new (Any_object truth) variable w iterable) = Some l
        /\ Forall (fun e => - w - 1 < Any_WindowStart (object e)) l).
Proof.
  intros Hw. split; [|split; [|split]].
  - unfold All.current_value, All_WindowStart; simpl. repeat split; lia.
  - unfold Any.current_value, Any_WindowStart; simpl. repeat split; lia.
  - destruct (@All_variable_window_start V truth iterable w) as (l & El & Hl);
      [lia|].
    exists l. split; [exact El|].
    apply Forall_impl with (2 := Hl). intros e He. lia.
  - destruct (@Any_variable_window_start V truth iterable w) as (l & El & Hl);
      [lia|].
    exists l. split; [exact El|].
    apply Forall_impl with (2 := Hl). intros e He. lia.
Qed.

Lemma empty_window_identities_witness :
  0 < 3
  /\ All.current_value (All._init_variable [8; 0; 1] 3) = true
  /\ Any.current_value (Any._init_variable [8; 0; 1] 3) = false.
Proof.
  split; [lia|].
  destruct (@empty_window_identities Z truth_int [8; 0; 1] 3)
    as ((_ & _ & Ha) & (_ & _ & Hb) & _); [lia|].
  split; [exact Ha | exact Hb].
Defined.

(** ** Further properties of the hooks, for any caller *)

Section HistoryFacts.
Context {V S R : Type} (RO : RollingObject V S R).

(** What every call keeps holds after each call of a sequence. *)
Lemma history_Forall (P : S -> Prop) :
  (forall c self, P self -> P (call_caught RO c self)) ->
  forall cs self, P self -> Forall P (history RO cs self).
Proof.
  intros Hkeep; induction cs as [|c cs IH]; intros self HP; simpl.
  - constructor.
  - constructor; [now apply Hkeep | apply IH; now apply Hkeep].
Qed.
End HistoryFacts.

Section HistorySim.
Context {V1 S1 R1 V2 S2 R2 : Type}
  (A : RollingObject V1 S1 R1) (B : RollingObject V2 S2 R2)
  (rel : S1 -> S2 -> Prop) (Sim : Simulates A B rel).

Lemma call_caught_sim c a b :
  rel a b -> rel (call_caught A c a) (call_caught B c b).
Proof.
  intros Hr. unfold call_caught, call. destruct c.
  - pose proof (sim_add_new Sim _ _ Hr) as H.
    destruct (_add_new a), (_add_new b); simpl in H; tauto.
  - pose proof (sim_update Sim _ _ Hr) as H.
    destruct (_update a), (_update b); simpl in H; tauto.
  - now apply (sim_remove_old Sim).
Qed.

Lemma history_sim cs : forall a b,
  rel a b -> Forall2 rel (history A cs a) (history B cs b).
Proof.
  induction cs as [|c cs IH]; intros a b Hr; simpl.
  - constructor.
  - pose proof (call_caught_sim c Hr) as Hr'.
    constructor; [exact Hr' | now apply IH].
Qed.
End HistorySim.

Section AllFollows.
Context {V : Type} (truth : V -> bool).

Lemma All_follows_call base source c self :
  All_follows truth base source self ->
  All_follows truth base source (call_caught (All_object truth) c self).
Proof.
  intros (seen & Hsrc & Htr). unfold call_caught, call; simpl.
  destruct c.
  - unfold All._add_new.
    destruct (All._iterator self) as [|val rest] eqn:Eit; simpl.
    + exists seen. rewrite Eit. now split.
    + exists (seen ++ [val]). simpl. split.
      * now rewrite <- app_assoc.
      * now apply tracks_snoc.
  - unfold All._update.
    destruct (All._iterator self) as [|val rest] eqn:Eit; simpl.
    + exists seen. rewrite Eit. now split.
    + exists (seen ++ [val]). simpl. split.
      * now rewrite <- app_assoc.
      * now apply tracks_snoc.
  - exists seen. simpl. now split.
Qed.

Lemma All_follows_init_fixed (source : list V) (w : Z) :
  All_follows truth 1 source (All._init_fixed truth source w).
Proof.
  exists (firstn (Z.to_nat (w - 1)) source). simpl. split.
  - symmetry. apply firstn_skipn.
  - apply (@tracks_prime V truth 1 (firstn (Z.to_nat (w - 1)) source) [] (0, -1)).
    apply tracks_nil; simpl; lia.
Qed.

Lemma All_follows_init_variable (source : list V) (w : Z) :
  0 <= w -> All_follows truth 0 source (All._init_variable source w).
Proof.
  intros Hw. exists []. simpl. split; [reflexivity|].
  apply tracks_nil; lia.
Qed.

Lemma All_follows_scan base source self :
  All_follows truth base source self ->
  0 <= All._obs self
     <= Z.of_nat (length (consumed (All_object truth) source self)) ->
  All.current_value self
  = forallb truth
      (lastn (All._obs self) (consumed (All_object truth) source self)).
Proof.
  intros (seen & Hsrc & Htr).
  rewrite (@consumed_app V truth source seen self Hsrc).
  intros Hobs. unfold All.current_value.
  now apply tracks_window with (base := base).
Qed.

Lemma All_follows_history base source cs self :
  All_follows truth base source self ->
  Forall (All_follows truth base source)
    (self :: history (All_object truth) cs self).
Proof.
  intros H. constructor; [exact H|].
  apply history_Forall; [|exact H].
  intros c s. apply All_follows_call.
Qed.
End AllFollows.

Section DualCallers.
Context {V W : Type} (f : V -> W) (truthA : V -> bool) (truthB : W -> bool).
Hypothesis truth_dual : forall v, truthA v = negb (truthB (f v)).

Lemma dual_init_fixed (source : list V) (w : Z) :
  dual f (All._init_fixed truthA source w)
    (Any._init_fixed truthB (map f source) w).
Proof.
  destruct (dual_new f truthA truthB truth_dual source w fixed)
    as (_ & _ & _ & H).
  exact H.
Qed.

Lemma dual_init_variable (source : list V) (w : Z) :
  dual f (All._init_variable source w)
    (Any._init_variable (map f source) w).
Proof.
  destruct (dual_new f truthA truthB truth_dual source w variable)
    as (_ & _ & _ & H).
  exact H.
Qed.

Lemma dual_history cs a b :
  dual f a b ->
  Forall2 (dual f)
    (a :: history (All_object truthA) cs a)
    (b :: history (Any_object truthB) cs b).
Proof.
  intros H. constructor; [exact H|].
  apply history_sim; [|exact H].
  now apply dual_sim.
Qed.
End DualCallers.

Section AnyFollows.
Context {V : Type} (truth : V -> bool).

(** The dual [All] object of an [Any] object: same source, opposite
    truthiness. *)
Lemma Any_dual_history (source : list V) (w : Z) cs :
  let untruth := fun v : V => negb (truth v) in
  Forall2 (dual (fun x : V => x))
    (All._init_fixed untruth source w
       :: history (All_object untruth) cs (All._init_fixed untruth source w))
    (Any._init_fixed truth source w
       :: history (Any_object truth) cs (Any._init_fixed truth source w))
  /\ Forall2 (dual (fun x : V => x))
       (All._init_variable source w
          :: history (All_object untruth) cs (All._init_variable source w))
       (Any._init_variable source w
          :: history (Any_object truth) cs (Any._init_variable source w)).
Proof.
  intros untruth.
  assert (forall v, untruth v = negb (truth ((fun x : V => x) v))) as Hdual
    by reflexivity.
  split.
  - apply dual_history; [exact Hdual|].
    pose proof (dual_init_fixed (fun x : V => x) untruth truth Hdual source w)
      as H.
    now rewrite map_id in H.
  - apply dual_history; [exact Hdual|].
    pose proof (dual_init_variable (fun x : V => x) untruth truth Hdual source w)
      as H.
    now rewrite map_id in H.
Qed.

Lemma dual_scan (source : list V) a b :
  let untruth := fun v : V => negb (truth v) in
  dual (fun x : V => x) a b ->
  (0 <= All._obs a
      <= Z.of_nat (length (consumed (All_object untruth) source a)) ->
   All.current_value a
   = forallb untruth
       (lastn (All._obs a) (consumed (All_object untruth) source a))) ->
  0 <= Any._obs b
     <= Z.of_nat (length (consumed (Any_object truth) source b)) ->
  Any.current_value b
  = existsb truth
      (lastn (Any._obs b) (consumed (Any_object truth) source b)).
Proof.
  intros untruth Hr Ha.
  pose proof (dual_current_value Hr) as Hcv.
  destruct Hr as (Hit & _ & Ho & _). rewrite map_id in Hit.
  unfold consumed in *; simpl in *. rewrite <- Hit, <- Ho.
  intros Hb. rewrite <- negb_forallb_negb. fold untruth.
  rewrite <- (Ha Hb), Hcv. now rewrite negb_involutive.
Qed.
End AnyFollows.

Section HistoryScan.
Context {V : Type} (truth : V -> bool).

Lemma All_history_scan (source : list V) (w : Z) (cs : list Call) init :
  1 <= w ->
  init = All._init_fixed truth source w
  \/ init = All._init_variable source w ->
  Forall (fun self =>
            0 <= All._obs self
               <= Z.of_nat (length (consumed (All_object truth) source self)) ->
            All.current_value self
            = forallb truth
                (lastn (All._obs self)
                   (consumed (All_object truth) source self)))
    (init :: history (All_object truth) cs init).
Proof.
  intros Hw [-> | ->].
  - apply Forall_impl
      with (2 := All_follows_history cs (All_follows_init_fixed truth source w)).
    intros self. apply All_follows_scan.
  - assert (0 <= w) as Hw0 by lia.
    apply Forall_impl
      with (2 := All_follows_history cs
                   (All_follows_init_variable truth source Hw0)).
    intros self. apply All_follows_scan.
Qed.
End HistoryScan.

Section HistoryScanAny.
Context {V : Type} (truth : V -> bool).

Lemma Any_history_scan (source : list V) (w : Z) (cs : list Call) init :
  1 <= w ->
  init = Any._init_fixed truth source w
  \/ init = Any._init_variable source w ->
  Forall (fun self =>
            0 <= Any._obs self
               <= Z.of_nat (length (consumed (Any_object truth) source self)) ->
            Any.current_value self
            = existsb truth
                (lastn (Any._obs self)
                   (consumed (Any_object truth) source self)))
    (init :: history (Any_object truth) cs init).
Proof.
  intros Hw.
  destruct (Any_dual_history truth source w cs) as [Hf Hv].
  intros [-> | ->].
  - refine (@Forall2_Forall_r _ _ _ _ _ _ _ _ Hf
              (@All_history_scan V _ source w cs _ Hw (or_introl eq_refl))).
    intros a b. apply dual_scan.
  - refine (@Forall2_Forall_r _ _ _ _ _ _ _ _ Hv
              (@All_history_scan V _ source w cs _ Hw (or_intror eq_refl))).
    intros a b. apply dual_scan.
Qed.
End HistoryScanAny.

(** X1: whatever sequence of hook calls a caller makes on an [All] or
    [Any] object after either initialisation, catching [StopIteration],
    whenever the window fits in what has been consumed
    ([0 <= _obs <= number of values pulled]) [current_value] is the
    conjunction, respectively the disjunction, of the truthiness of the
    last [_obs] values pulled. *)
Theorem window_scan_for_any_caller (V : Type) (truth : V -> bool)
  (source : list V) (w : Z) (cs : list Call) :
  1 <= w ->
  (forall init,
      init = All._init_fixed truth source w
      \/ init = All._init_variable source w ->
      Forall (fun self =>
                0 <= All._obs self
                   <= Z.of_nat
                        (length (consumed (All_object truth) source self)) ->
                All.current_value self
                = forallb truth
                    (lastn (All._obs self)
                       (consumed (All_object truth) source self)))
        (init :: history (All_object truth) cs init))
  /\ (forall init,
      init = Any._init_fixed truth source w
      \/ init = Any._init_variable source w ->
      Forall (fun self =>
                0 <= Any._obs self
                   <= Z.of_nat
                        (length (consumed (Any_object truth) source self)) ->
                Any.current_value self
                = existsb truth
                    (lastn (Any._obs self)
                       (consumed (Any_object truth) source self)))
        (init :: history (Any_object truth) cs init)).
Proof.
  intros Hw. split; intros init Hinit.
  - now apply All_history_scan with (w := w).
  - now apply Any_history_scan with (w := w).
Qed.

Lemma window_scan_for_any_caller_witness :
  1 <= 2
  /\ Forall (fun self =>
              0 <= All._obs self
                 <= Z.of_nat
                      (length (consumed (All_object truth_int) [8; 0; 1; 3]
                                 self)) ->
              All.current_value self
              = forallb truth_int
                  (lastn (All._obs self)
                     (consumed (All_object truth_int) [8; 0; 1; 3] self)))
       (All._init_variable [8; 0; 1; 3] 2
          :: history (All_object truth_int)
               [AddNew; AddNew; Update; RemoveOld; Update; Update]
               (All._init_variable [8; 0; 1; 3] 2)).
Proof.
  split; [lia|].
  apply (proj1 (@window_scan_for_any_caller Z truth_int [8; 0; 1; 3] 2
                  [AddNew; AddNew; Update; RemoveOld; Update; Update]
                  ltac:(lia))).
  right; reflexivity.
Defined.

(** ** The priming loop of [_init_fixed] *)

Section Priming.
Context {V : Type}.

Lemma primed_nil (mark : V -> bool) : primed mark [] 0 (-1).
Proof. split; [reflexivity|]. split; [reflexivity | discriminate]. Qed.

Lemma primed_snoc (mark : V -> bool) seen i last val :
  primed mark seen i last ->
  primed mark (seen ++ [val]) (i + 1) (if mark val then i + 1 else last).
Proof.
  intros (Hi & Hnone & Hsome). split; [rewrite length_app; simpl; lia|].
  rewrite existsb_app; simpl. rewrite orb_false_r.
  destruct (mark val) eqn:Ev.
  - rewrite orb_true_r. split; [discriminate|]. intros _.
    split; [lia|]. split.
    + exists val. split; [|exact Ev].
      replace (Z.to_nat (i + 1 - 1)) with (length seen + 0)%nat by lia.
      rewrite nth_error_app2 by lia.
      replace (length seen + 0 - length seen)%nat with 0%nat by lia.
      reflexivity.
    + rewrite skipn_all2; [reflexivity|]. rewrite length_app; simpl; lia.
  - rewrite orb_false_r. split; [exact Hnone|]. intros Hex.
    destruct (Hsome Hex) as (Hl & (v & Hn & Hv) & Hrest).
    split; [lia|]. split.
    + exists v. split; [|exact Hv].
      rewrite nth_error_app1; [exact Hn|].
      apply nth_error_Some. congruence.
    + rewrite skipn_app, existsb_app, Hrest.
      replace (Z.to_nat last - length seen)%nat with 0%nat by lia.
      simpl. now rewrite Ev.
Qed.

Lemma primed_All (truth : V -> bool) head : forall seen acc,
  primed (fun v => negb (truth v)) seen (fst acc) (snd acc) ->
  primed (fun v => negb (truth v)) (seen ++ head)
    (fst (fold_left (All.prime truth) head acc))
    (snd (fold_left (All.prime truth) head acc)).
Proof.
  induction head as [|val head IH]; intros seen acc H; simpl.
  - now rewrite app_nil_r.
  - replace (seen ++ val :: head) with ((seen ++ [val]) ++ head)
      by now rewrite <- app_assoc.
    apply IH. unfold All.prime; simpl.
    now apply primed_snoc with (mark := fun v => negb (truth v)).
Qed.

Lemma primed_Any (truth : V -> bool) head : forall seen acc,
  primed truth seen (fst acc) (snd acc) ->
  primed truth (seen ++ head)
    (fst (fold_left (Any.prime truth) head acc))
    (snd (fold_left (Any.prime truth) head acc)).
Proof.
  induction head as [|val head IH]; intros seen acc H; simpl.
  - now rewrite app_nil_r.
  - replace (seen ++ val :: head) with ((seen ++ [val]) ++ head)
      by now rewrite <- app_assoc.
    apply IH. unfold Any.prime; simpl. now apply primed_snoc.
Qed.

Lemma length_head (source : list V) (w : Z) :
  1 <= w ->
  Z.of_nat (length (firstn (Z.to_nat (w - 1)) source))
  = Z.min (Z.of_nat (length source)) (w - 1).
Proof. intros Hw. rewrite length_firstn. lia. Qed.
End Priming.

(** X2: [All._init_fixed] pulls the first [window_size - 1] values (all
    of them when the source is shorter), sets [_obs] to [window_size]
    and [_i] to the number of values pulled, and leaves in [_last_false]
    either [-1], when every value pulled is truthy, or the 1-based
    position of the last falsy value pulled. *)
Theorem All_init_fixed_primes (V : Type) (truth : V -> bool)
  (source : list V) (w : Z) :
  1 <= w ->
  let self := All._init_fixed truth source w in
  let head := firstn (Z.to_nat (w - 1)) source in
  source = head ++ All._iterator self
  /\ All._obs self = w
  /\ All._i self = Z.min (Z.of_nat (length source)) (w - 1)
  /\ (forallb truth head = true -> All._last_false self = -1)
  /\ (forallb truth head = false ->
      1 <= All._last_false self <= All._i self
      /\ (exists v,
             nth_error head (Z.to_nat (All._last_false self - 1)) = Some v
             /\ truth v = false)
      /\ forallb truth (skipn (Z.to_nat (All._last_false self)) head) = true).
Proof.
  intros Hw self head.
  pose proof (@primed_All V truth head [] (0, -1)
                (primed_nil (fun v => negb (truth v))))
    as (Hi & Hnone & Hsome).
  simpl in Hi, Hnone, Hsome.
  rewrite <- !negb_forallb_negb in Hnone, Hsome.
  assert (forall l, forallb (fun v => negb (negb (truth v))) l
                    = forallb truth l) as Hnn.
  { induction l as [|x l IH]; simpl; [reflexivity|].
    now rewrite negb_involutive, IH. }
  rewrite !Hnn in Hnone, Hsome.
  split; [symmetry; apply firstn_skipn|]. split; [reflexivity|].
  split; [subst self; simpl; fold head; rewrite Hi; now apply length_head|].
  split.
  - intros Hall. apply Hnone. now rewrite Hall.
  - intros Hall. destruct Hsome as (Hl & (v & Hn & Hv) & Hrest);
      [now rewrite Hall|].
    split; [exact Hl|]. split.
    + exists v. split; [exact Hn|]. now destruct (truth v).
    + rewrite <- negb_forallb_negb, Hnn in Hrest.
      now apply negb_false_iff in Hrest.
Qed.

Lemma All_init_fixed_primes_witness :
  1 <= 4
  /\ All._i (All._init_fixed truth_int [8; 0; 1; 3; 6; 5] 4) = 3
  /\ All._last_false (All._init_fixed truth_int [8; 0; 1; 3; 6; 5] 4) = 2.
Proof.
  split; [lia|].
  destruct (@All_init_fixed_primes Z truth_int [8; 0; 1; 3; 6; 5] 4)
    as (_ & _ & Hi & _ & _); [lia|].
  split; [exact Hi | reflexivity].
Defined.

(** X3: [Any._init_fixed] pulls the first [window_size - 1] values (all
    of them when the source is shorter), sets [_obs] to [window_size]
    and [_i] to the number of values pulled, and leaves in [_last_true]
    either [-1], when every value pulled is falsy, or the 1-based
    position of the last truthy value pulled. *)
Theorem Any_init_fixed_primes (V : Type) (truth : V -> bool)
  (source : list V) (w : Z) :
  1 <= w ->
  let self := Any._init_fixed truth source w in
  let head := firstn (Z.to_nat (w - 1)) source in
  source = head ++ Any._iterator self
  /\ Any._obs self = w
  /\ Any._i self = Z.min (Z.of_nat (length source)) (w - 1)
  /\ (existsb truth head = false -> Any._last_true self = -1)
  /\ (existsb truth head = true ->
      1 <= Any._last_true self <= Any._i self
      /\ (exists v,
             nth_error head (Z.to_nat (Any._last_true self - 1)) = Some v
             /\ truth v = true)
      /\ existsb truth (skipn (Z.to_nat (Any._last_true self)) head) = false).
Proof.
  intros Hw self head.
  pose proof (@primed_Any V truth head [] (0, -1) (primed_nil truth))
    as (Hi & Hnone & Hsome).
  simpl in Hi, Hnone, Hsome.
  split; [symmetry; apply firstn_skipn|]. split; [reflexivity|].
  split; [subst self; simpl; fold head; rewrite Hi; now apply length_head|].
  split; assumption.
Qed.

Lemma Any_init_fixed_primes_witness :
  1 <= 4
  /\ Any._i (Any._init_fixed truth_int [1; 0; 0; 0; 6; 5] 4) = 3
  /\ Any._last_true (Any._init_fixed truth_int [1; 0; 0; 0; 6; 5] 4) = 1.
Proof.
  split; [lia|].
  destruct (@Any_init_fixed_primes Z truth_int [1; 0; 0; 0; 6; 5] 4)
    as (_ & _ & Hi & _ & _); [lia|].
  split; [exact Hi | reflexivity].
Defined.

(** ** How the hooks compose *)

(** X4: sliding is growing then evicting: [_update] does what [_add_new]
    followed by [_remove_old] does, [StopIteration] included; and evicting
    before or after a slide gives the same object.  For [All] and
    [Any]. *)
Theorem update_is_add_new_then_remove_old (V : Type) (truth : V -> bool) :
  (forall self : All.t V,
      option_map (@All._remove_old V) (All._add_new truth self)
      = All._update truth self
      /\ All._update truth (All._remove_old self)
         = option_map (@All._remove_old V) (All._update truth self))
  /\ (forall self : Any.t V,
      option_map (@Any._remove_old V) (Any._add_new truth self)
      = Any._update truth self
      /\ Any._update truth (Any._remove_old self)
         = option_map (@Any._remove_old V) (Any._update truth self)).
Proof.
  split; intros self.
  - unfold All._add_new, All._update, All._remove_old.
    destruct (All._iterator self) as [|val rest] eqn:E; simpl; rewrite ?E;
      simpl; [split; reflexivity|].
    split; [|reflexivity]. do 2 f_equal. lia.
  - unfold Any._add_new, Any._update, Any._remove_old.
    destruct (Any._iterator self) as [|val rest] eqn:E; simpl; rewrite ?E;
      simpl; [split; reflexivity|].
    split; [|reflexivity]. do 2 f_equal. lia.
Qed.

(** X5: growing a window that is not negative in size by one value
    combines the old aggregate with the truthiness of the value pulled:
    [All] becomes [old and truth(value)], [Any] becomes
    [old or truth(value)]; on an exhausted iterator [_add_new] raises
    [StopIteration]. *)
Theorem add_new_combines (V : Type) (truth : V -> bool) :
  (forall self : All.t V,
      0 <= All._obs self ->
      match All._iterator self with
      | [] => All._add_new truth self = None
      | val :: rest =>
          exists self',
            All._add_new truth self = Some self'
            /\ All._iterator self' = rest
            /\ All.current_value self'
               = All.current_value self && truth val
      end)
  /\ (forall self : Any.t V,
      0 <= Any._obs self ->
      match Any._iterator self with
      | [] => Any._add_new truth self = None
      | val :: rest =>
          exists self',
            Any._add_new truth self = Some self'
            /\ Any._iterator self' = rest
            /\ Any.current_value self'
               = Any.current_value self || truth val
      end).
Proof.
  split; intros self Hobs.
  - unfold All._add_new.
    destruct (All._iterator self) as [|val rest]; simpl; [reflexivity|].
    eexists. split; [reflexivity|]. split; [reflexivity|].
    unfold All.current_value; simpl.
    destruct (truth val); simpl.
    + rewrite andb_true_r. f_equal. lia.
    + rewrite andb_false_r. lia.
  - unfold Any._add_new.
    destruct (Any._iterator self) as [|val rest]; simpl; [reflexivity|].
    eexists. split; [reflexivity|]. split; [reflexivity|].
    unfold Any.current_value; simpl.
    destruct (truth val); simpl.
    + rewrite orb_true_r. lia.
    + rewrite orb_false_r. f_equal. lia.
Qed.

Lemma add_new_combines_witness :
  0 <= All._obs (All._init_variable [8; 0; 1] 3)
  /\ exists self',
      All._add_new truth_int (All._init_variable [8; 0; 1] 3) = Some self'
      /\ All._iterator self' = [0; 1]
      /\ All.current_value self'
         = All.current_value (All._init_variable [8; 0; 1] 3) && truth_int 8.
Proof.
  split; [simpl; lia|].
  apply (proj1 (@add_new_combines Z truth_int)
           (All._init_variable [8; 0; 1] 3)).
  simpl; lia.
Defined.

(** X6: after [_update] has pulled a value into a window of at least
    one observation, the newest value decides: a falsy value makes
    [All.current_value] false and a truthy value makes
    [Any.current_value] true, whatever the counters were. *)
Theorem update_newest_value_decides (V : Type) (truth : V -> bool) :
  (forall (self self' : All.t V) val rest,
      1 <= All._obs self ->
      All._iterator self = val :: rest ->
      truth val = false ->
      All._update truth self = Some self' ->
      All.current_value self' = false)
  /\ (forall (self self' : Any.t V) val rest,
      1 <= Any._obs self ->
      Any._iterator self = val :: rest ->
      truth val = true ->
      Any._update truth self = Some self' ->
      Any.current_value self' = true).
Proof.
  split; intros self self' val rest Hobs Hit Hval.
  - unfold All._update. rewrite Hit; simpl. rewrite Hval; simpl.
    intros [= <-]. unfold All.current_value; simpl. lia.
  - unfold Any._update. rewrite Hit; simpl. rewrite Hval; simpl.
    intros [= <-]. unfold Any.current_value; simpl. lia.
Qed.

Lemma update_newest_value_decides_witness :
  (1 <= All._obs (All.mk [0; 7] 2 2 (-1))
   /\ truth_int 0 = false
   /\ All._update truth_int (All.mk [0; 7] 2 2 (-1))
      = Some (All.mk [7] 3 2 3))
  /\ All.current_value (All.mk [7] 3 2 3) = false.
Proof.
  split; [split; [simpl; lia | split; reflexivity]|].
  apply (proj1 (@update_newest_value_decides Z truth_int)
           (All.mk [0; 7] 2 2 (-1)) (All.mk [7] 3 2 3) 0 [7]);
    (reflexivity || (simpl; lia)).
Defined.

(** X7: evicting never falsifies [All] and never satisfies [Any]: if
    [All.current_value] is true it is still true after [_remove_old], and
    if [Any.current_value] is false it is still false after
    [_remove_old]. *)
Theorem remove_old_is_monotone (V : Type) :
  (forall self : All.t V,
      All.current_value self = true ->
      All.current_value (All._remove_old self) = true)
  /\ (forall self : Any.t V,
      Any.current_value self = false ->
      Any.current_value (Any._remove_old self) = false).
Proof.
  split; intros self.
  - unfold All.current_value, All._remove_old; simpl. lia.
  - unfold Any.current_value, Any._remove_old; simpl. lia.
Qed.

Lemma remove_old_is_monotone_witness :
  All.current_value (All.mk [5] 4 3 1) = true
  /\ All.current_value (All._remove_old (All.mk [5] 4 3 1)) = true.
Proof.
  split; [reflexivity|].
  apply (proj1 (@remove_old_is_monotone Z)). reflexivity.
Defined.

(** ** Counters and the source, for any caller *)

Section Counters.
Context {V : Type} (truth : V -> bool).

Lemma All_follows_counters base source self :
  All_follows truth base source self ->
  source = consumed (All_object truth) source self ++ All._iterator self
  /\ All._i self
     = Z.of_nat (length (consumed (All_object truth) source self)) + base - 1
  /\ All._last_false self <= All._i self.
Proof.
  intros (seen & Hsrc & Hi & _ & Hlast).
  rewrite (@consumed_app V truth source seen self Hsrc).
  split; [exact Hsrc|]. split; [exact Hi|].
  destruct (Z.lt_ge_cases (All._last_false self) base) as [Hlt|Hge]; [lia|].
  destruct (Hlast Hge) as (v & Hn & _).
  assert (Z.to_nat (All._last_false self - base) < length seen)%nat
    by (apply nth_error_Some; congruence).
  lia.
Qed.

Lemma All_history_counters base source cs self :
  All_follows truth base source self ->
  Forall (fun self =>
            source
            = consumed (All_object truth) source self ++ All._iterator self
            /\ All._i self
               = Z.of_nat (length (consumed (All_object truth) source self))
                 + base - 1
            /\ All._last_false self <= All._i self)
    (self :: history (All_object truth) cs self).
Proof.
  intros H. apply Forall_impl with (2 := All_follows_history cs H).
  intros s. apply All_follows_counters.
Qed.
End Counters.

Section CountersAny.
Context {V : Type} (truth : V -> bool).

Lemma dual_counters base (source : list V) a b :
  let untruth := fun v : V => negb (truth v) in
  dual (fun x : V => x) a b ->
  (source = consumed (All_object untruth) source a ++ All._iterator a
   /\ All._i a
      = Z.of_nat (length (consumed (All_object untruth) source a)) + base - 1
   /\ All._last_false a <= All._i a) ->
  source = consumed (Any_object truth) source b ++ Any._iterator b
  /\ Any._i b
     = Z.of_nat (length (consumed (Any_object truth) source b)) + base - 1
  /\ Any._last_true b <= Any._i b.
Proof.
  intros untruth (Hit & Hi & _ & Hl). rewrite map_id in Hit.
  unfold consumed in *; simpl in *. now rewrite <- Hit, <- Hi, <- Hl.
Qed.
End CountersAny.

(** X8: single pass.  Whatever hooks a caller invokes after either
    initialisation, the iterator is always the source minus the values
    pulled so far, in order: no value is pulled twice or skipped.  [_i]
    counts the values pulled, from 1 after [_init_fixed] and from 0 after
    [_init_variable], and the recorded position [_last_false] /
    [_last_true] never exceeds [_i]. *)
Theorem single_pass_for_any_caller (V : Type) (truth : V -> bool)
  (source : list V) (w : Z) (cs : list Call) :
  1 <= w ->
  let pulled_All self := consumed (All_object truth) source self in
  let pulled_Any self := consumed (Any_object truth) source self in
  Forall (fun self =>
            source = pulled_All self ++ All._iterator self
            /\ All._i self = Z.of_nat (length (pulled_All self))
            /\ All._last_false self <= All._i self)
    (All._init_fixed truth source w
       :: history (All_object truth) cs (All._init_fixed truth source w))
  /\ Forall (fun self =>
               source = pulled_All self ++ All._iterator self
               /\ All._i self = Z.of_nat (length (pulled_All self)) - 1
               /\ All._last_false self <= All._i self)
       (All._init_variable source w
          :: history (All_object truth) cs (All._init_variable source w))
  /\ Forall (fun self =>
               source = pulled_Any self ++ Any._iterator self
               /\ Any._i self = Z.of_nat (length (pulled_Any self))
               /\ Any._last_true self <= Any._i self)
       (Any._init_fixed truth source w
          :: history (Any_object truth) cs (Any._init_fixed truth source w))
  /\ Forall (fun self =>
               source = pulled_Any self ++ Any._iterator self
               /\ Any._i self = Z.of_nat (length (pulled_Any self)) - 1
               /\ Any._last_true self <= Any._i self)
       (Any._init_variable source w
          :: history (Any_object truth) cs (Any._init_variable source w)).
Proof.
  intros Hw pulled_All pulled_Any.
  assert (0 <= w) as Hw0 by lia.
  assert (forall x : Z, x + 1 - 1 = x) as E1 by (intros; lia).
  assert (forall x : Z, x + 0 - 1 = x - 1) as E0 by (intros; lia).
  destruct (Any_dual_history truth source w cs) as [Hf Hv].
  pose proof (All_history_counters cs (All_follows_init_fixed truth source w))
    as HAf.
  pose proof (All_history_counters cs
                (All_follows_init_variable truth source Hw0)) as HAv.
  pose proof (All_history_counters cs
                (All_follows_init_fixed (fun v => negb (truth v)) source w))
    as HUf.
  pose proof (All_history_counters cs
                (All_follows_init_variable (fun v => negb (truth v)) source
                   Hw0)) as HUv.
  split; [|split; [|split]].
  - apply Forall_impl with (2 := HAf). intros s. now rewrite E1.
  - apply Forall_impl with (2 := HAv). intros s. now rewrite E0.
  - refine (@Forall2_Forall_r _ _ _ _ _ _ _ _ Hf HUf).
    intros a b Hr Ha.
    pose proof (@dual_counters V truth 1 source a b Hr Ha) as H.
    now rewrite E1 in H.
  - refine (@Forall2_Forall_r _ _ _ _ _ _ _ _ Hv HUv).
    intros a b Hr Ha.
    pose proof (@dual_counters V truth 0 source a b Hr Ha) as H.
    now rewrite E0 in H.
Qed.

Lemma single_pass_for_any_caller_witness :
  1 <= 2
  /\ Forall (fun self =>
               [8; 0; 1; 3]
               = consumed (All_object truth_int) [8; 0; 1; 3] self
                 ++ All._iterator self
               /\ All._i self
                  = Z.of_nat
                      (length (consumed (All_object truth_int) [8; 0; 1; 3]
                                 self))
               /\ All._last_false self <= All._i self)
       (All._init_fixed truth_int [8; 0; 1; 3] 2
          :: history (All_object truth_int)
               [Update; Update; RemoveOld; Update; Update; AddNew]
               (All._init_fixed truth_int [8; 0; 1; 3] 2)).
Proof.
  split; [lia|].
  apply (@single_pass_for_any_caller Z truth_int [8; 0; 1; 3] 2
           [Update; Update; RemoveOld; Update; Update; AddNew]).
  lia.
Defined.

(** X9: duality for any caller.  When the truthiness of each value of
    one source is the negation of the truthiness of the corresponding
    value of another, an [All] object over the first and an [Any] object
    over the second, initialised alike and given the same hook calls,
    keep equal counters, and [All.current_value] is the negation of
    [Any.current_value] after every call. *)
Theorem hooks_are_dual_for_any_caller (V W : Type) (f : V -> W)
  (truthA : V -> bool) (truthB : W -> bool)
  (source : list V) (w : Z) (cs : list Call) :
  (forall v, truthA v = negb (truthB (f v))) ->
  let mirrored (a : All.t V) (b : Any.t W) :=
    All.current_value a = negb (Any.current_value b)
    /\ All._i a = Any._i b /\ All._obs a = Any._obs b
    /\ All._last_false a = Any._last_true b
    /\ length (All._iterator a) = length (Any._iterator b) in
  Forall2 mirrored
    (All._init_fixed truthA source w
       :: history (All_object truthA) cs (All._init_fixed truthA source w))
    (Any._init_fixed truthB (map f source) w
       :: history (Any_object truthB) cs
            (Any._init_fixed truthB (map f source) w))
  /\ Forall2 mirrored
       (All._init_variable source w
          :: history (All_object truthA) cs (All._init_variable source w))
       (Any._init_variable (map f source) w
          :: history (Any_object truthB) cs
               (Any._init_variable (map f source) w)).
Proof.
  intros Hdual mirrored.
  assert (forall a b, dual f a b -> mirrored a b) as Himp.
  { intros a b Hr. pose proof (dual_current_value Hr) as Hcv.
    destruct Hr as (Hit & Hi & Ho & Hl).
    repeat split; try assumption. now rewrite <- Hit, length_map. }
  split.
  - apply Forall2_impl with (1 := Himp).
    exact (dual_history truthA truthB Hdual cs
             (dual_init_fixed f truthA truthB Hdual source w)).
  - apply Forall2_impl with (1 := Himp).
    exact (dual_history truthA truthB Hdual cs
             (dual_init_variable f truthA truthB Hdual source w)).
Qed.

Lemma hooks_are_dual_for_any_caller_witness :
  (forall v, truth_bool v = negb (truth_bool (negb v)))
  /\ Forall2 (fun (a : All.t bool) (b : Any.t bool) =>
                All.current_value a = negb (Any.current_value b)
                /\ All._i a = Any._i b /\ All._obs a = Any._obs b
                /\ All._last_false a = Any._last_true b
                /\ length (All._iterator a) = length (Any._iterator b))
       (All._init_variable [true; false; true] 2
          :: history (All_object truth_bool) [AddNew; AddNew; Update; RemoveOld]
               (All._init_variable [true; false; true] 2))
       (Any._init_variable (map negb [true; false; true]) 2
          :: history (Any_object truth_bool) [AddNew; AddNew; Update; RemoveOld]
               (Any._init_variable (map negb [true; false; true]) 2)).
Proof.
  assert (forall v, truth_bool v = negb (truth_bool (negb v))) as H
    by (intros v; unfold truth_bool; now rewrite negb_involutive).
  split; [exact H|].
  apply (proj2 (@hooks_are_dual_for_any_caller bool bool negb truth_bool
                  truth_bool [true; false; true] 2
                  [AddNew; AddNew; Update; RemoveOld] H)).
Defined.

(** X10: the aggregate does not depend on how the object was
    initialised or driven.  Two [All] (or two [Any]) objects over the
    same source, one started by [_init_fixed] and one by [_init_variable]
    and each driven by any hook calls, have the same [current_value]
    whenever they have pulled as many values and hold as many
    observations, the window fitting in what was pulled. *)
Theorem current_value_is_mode_independent (V : Type) (truth : V -> bool)
  (source : list V) (w : Z) (cs1 cs2 : list Call) :
  1 <= w ->
  (forall s1 s2 : All.t V,
      In s1 (All._init_fixed truth source w
               :: history (All_object truth) cs1
                    (All._init_fixed truth source w)) ->
      In s2 (All._init_variable source w
               :: history (All_object truth) cs2
                    (All._init_variable source w)) ->
      length (All._iterator s1) = length (All._iterator s2) ->
      All._obs s1 = All._obs s2 ->
      0 <= All._obs s1
         <= Z.of_nat (length source - length (All._iterator s1)) ->
      All.current_value s1 = All.current_value s2)
  /\ (forall s1 s2 : Any.t V,
      In s1 (Any._init_fixed truth source w
               :: history (Any_object truth) cs1
                    (Any._init_fixed truth source w)) ->
      In s2 (Any._init_variable source w
               :: history (Any_object truth) cs2
                    (Any._init_variable source w)) ->
      length (Any._iterator s1) = length (Any._iterator s2) ->
      Any._obs s1 = Any._obs s2 ->
      0 <= Any._obs s1
         <= Z.of_nat (length source - length (Any._iterator s1)) ->
      Any.current_value s1 = Any.current_value s2).
Proof.
  intros Hw. split; intros s1 s2 H1 H2 Hit Hobs Hfit.
  - pose proof (@All_history_scan V truth source w cs1 _ Hw
                  (or_introl eq_refl)) as F1.
    pose proof (@All_history_scan V truth source w cs2 _ Hw
                  (or_intror eq_refl)) as F2.
    rewrite Forall_forall in F1, F2.
    pose proof (F1 _ H1) as E1. pose proof (F2 _ H2) as E2.
    unfold consumed in E1, E2; simpl in E1, E2.
    rewrite <- Hit, <- Hobs in E2.
    assert (length (firstn (length source - length (All._iterator s1)) source)
            = (length source - length (All._iterator s1))%nat) as Hlen
      by (rewrite length_firstn; lia).
    rewrite Hlen in E1, E2. now rewrite E1, E2.
  - pose proof (@Any_history_scan V truth source w cs1 _ Hw
                  (or_introl eq_refl)) as F1.
    pose proof (@Any_history_scan V truth source w cs2 _ Hw
                  (or_intror eq_refl)) as F2.
    rewrite Forall_forall in F1, F2.
    pose proof (F1 _ H1) as E1. pose proof (F2 _ H2) as E2.
    unfold consumed in E1, E2; simpl in E1, E2.
    rewrite <- Hit, <- Hobs in E2.
    assert (length (firstn (length source - length (Any._iterator s1)) source)
            = (length source - length (Any._iterator s1))%nat) as Hlen
      by (rewrite length_firstn; lia).
    rewrite Hlen in E1, E2. now rewrite E1, E2.
Qed.

Lemma current_value_is_mode_independent_witness :
  1 <= 2
  /\ All.current_value (All.mk [1; 3] 2 2 2)
     = All.current_value (All.mk [1; 3] 1 2 1).
Proof.
  split; [lia|].
  apply (proj1 (@current_value_is_mode_independent Z truth_int [8; 0; 1; 3] 2
                  [Update] [AddNew; AddNew] ltac:(lia))); simpl;
    [right; left; reflexivity | right; right; left; reflexivity
    | reflexivity | reflexivity | lia].
Defined.

(** ** After the source has run dry *)

Section Exhausted.
Context {V : Type} (truth : V -> bool).

Lemma All_exhausted_history cs : forall self : All.t V,
  All._iterator self = [] ->
  Forall (fun self' =>
            All._iterator self' = []
            /\ All._i self' = All._i self
            /\ All._last_false self' = All._last_false self
            /\ All._obs self - Z.of_nat (length cs) <= All._obs self'
               <= All._obs self)
    (history (All_object truth) cs self).
Proof.
  induction cs as [|c cs IH]; intros self Hit; simpl; [constructor|].
  assert (All._iterator (call_caught (All_object truth) c self) = []
          /\ All._i (call_caught (All_object truth) c self) = All._i self
          /\ All._last_false (call_caught (All_object truth) c self)
             = All._last_false self
          /\ All._obs self - 1
             <= All._obs (call_caught (All_object truth) c self)
             <= All._obs self) as (H1 & H2 & H3 & H4).
  { unfold call_caught, call; simpl.
    unfold All._add_new, All._update. rewrite Hit.
    destruct c; simpl; repeat split; try assumption; lia. }
  constructor; [repeat split; try assumption; lia|].
  apply Forall_impl with (2 := IH _ H1).
  intros s (G1 & G2 & G3 & G4). repeat split; try congruence; lia.
Qed.

Lemma Any_exhausted_history cs : forall self : Any.t V,
  Any._iterator self = [] ->
  Forall (fun self' =>
            Any._iterator self' = []
            /\ Any._i self' = Any._i self
            /\ Any._last_true self' = Any._last_true self
            /\ Any._obs self - Z.of_nat (length cs) <= Any._obs self'
               <= Any._obs self)
    (history (Any_object truth) cs self).
Proof.
  induction cs as [|c cs IH]; intros self Hit; simpl; [constructor|].
  assert (Any._iterator (call_caught (Any_object truth) c self) = []
          /\ Any._i (call_caught (Any_object truth) c self) = Any._i self
          /\ Any._last_true (call_caught (Any_object truth) c self)
             = Any._last_true self
          /\ Any._obs self - 1
             <= Any._obs (call_caught (Any_object truth) c self)
             <= Any._obs self) as (H1 & H2 & H3 & H4).
  { unfold call_caught, call; simpl.
    unfold Any._add_new, Any._update. rewrite Hit.
    destruct c; simpl; repeat split; try assumption; lia. }
  constructor; [repeat split; try assumption; lia|].
  apply Forall_impl with (2 := IH _ H1).
  intros s (G1 & G2 & G3 & G4). repeat split; try congruence; lia.
Qed.
End Exhausted.

(** X11: once the iterator is exhausted, no sequence of hook calls
    (with [StopIteration] caught) moves [_i] or the recorded position
    again; [_obs] can only go down, by at most one per call.  So from
    then on [All.current_value] can only turn from false to true and
    [Any.current_value] only from true to false. *)
Theorem exhausted_object_only_shrinks (V : Type) (truth : V -> bool)
  (cs : list Call) :
  (forall self : All.t V,
      All._iterator self = [] ->
      Forall (fun self' =>
                All._iterator self' = []
                /\ All._i self' = All._i self
                /\ All._last_false self' = All._last_false self
                /\ All._obs self - Z.of_nat (length cs) <= All._obs self'
                   <= All._obs self
                /\ (All.current_value self = true ->
                    All.current_value self' = true))
        (history (All_object truth) cs self))
  /\ (forall self : Any.t V,
      Any._iterator self = [] ->
      Forall (fun self' =>
                Any._iterator self' = []
                /\ Any._i self' = Any._i self
                /\ Any._last_true self' = Any._last_true self
                /\ Any._obs self - Z.of_nat (length cs) <= Any._obs self'
                   <= Any._obs self
                /\ (Any.current_value self = false ->
                    Any.current_value self' = false))
        (history (Any_object truth) cs self)).
Proof.
  split; intros self Hit.
  - apply Forall_impl with (2 := All_exhausted_history truth cs self Hit).
    intros s (G1 & G2 & G3 & G4).
    repeat split; try assumption; try lia.
    unfold All.current_value. rewrite G2, G3. lia.
  - apply Forall_impl with (2 := Any_exhausted_history truth cs self Hit).
    intros s (G1 & G2 & G3 & G4).
    repeat split; try assumption; try lia.
    unfold Any.current_value. rewrite G2, G3. lia.
Qed.

Lemma exhausted_object_only_shrinks_witness :
  All._iterator (All.mk (@nil Z) 5 3 3) = []
  /\ Forall (fun self' =>
               All._iterator self' = []
               /\ All._i self' = 5
               /\ All._last_false self' = 3
               /\ 3 - 3 <= All._obs self' <= 3
               /\ (All.current_value (All.mk (@nil Z) 5 3 3) = true ->
                   All.current_value self' = true))
       (history (All_object truth_int) [Update; RemoveOld; AddNew]
          (All.mk (@nil Z) 5 3 3)).
Proof.
  split; [reflexivity|].
  apply (proj1 (@exhausted_object_only_shrinks Z truth_int
                  [Update; RemoveOld; AddNew]) (All.mk (@nil Z) 5 3 3)).
  reflexivity.
Defined.
